(** * Cloud-disk extension of the smartnic agent: name registry, RPC steps,
      attach and detach workflows.

    Shallow embedding of [ironic_python_agent/extensions/cloud_disk.py].

    Conventions of the embedding.
    - A Python [str] is a Rocq [string], read as the UTF-8 bytes of the text;
      [.encode()] is then the identity on the bytes.
    - [self._created_devices] (a Python [set] of [str]) is a [gset string].
    - Exceptions are values of [exn]; a method is a function from the state
      to a result (returned value or raised exception) and the next state.
    - What the extension calls but does not define ([utils.execute], the
      file system behind [persist_devices], Python's [repr] of a [str]) is a
      Section variable.
    - Logging ([LOG.info], [LOG.error], [print]) changes nothing that the
      extension reads back and is left out, as is the length of
      [time.sleep].
    - The methods are embedded as their bodies: the [sync_command] and
      [async_command] decorators of the dispatch layer are not part of the
      extension.  [load_devices] only decides the Name Set the agent starts
      with; the properties are stated for every Name Set. *)

From Stdlib Require Import ZArith Ascii String List Lia.
From stdpp Require Import gmap strings.
Import ListNotations.

Local Open Scope string_scope.

(* [set_solver] clears hypotheses it has already consumed. *)
#[local] Set Warnings "-clear-no-such-hyp".

(** ** MD5 ([hashlib.md5], RFC 1321), on 32-bit words kept in [Z] *)

Module MD5.
Local Open Scope Z_scope.

Definition w32 (x : Z) : Z := x mod 2 ^ 32.

Definition add32 (x y : Z) : Z := w32 (x + y).

Definition not32 (x : Z) : Z := Z.lxor x 0xFFFFFFFF.

Definition rotl32 (x c : Z) : Z :=
  w32 (Z.lor (Z.shiftl x c) (Z.shiftr x (32 - c))).

Definition F (b c d : Z) : Z := Z.lor (Z.land b c) (Z.land (not32 b) d).
Definition G (b c d : Z) : Z := Z.lor (Z.land b d) (Z.land c (not32 d)).
Definition H (b c d : Z) : Z := Z.lxor b (Z.lxor c d).
Definition I (b c d : Z) : Z := Z.lxor c (Z.lor b (not32 d)).

(** Per-round left-rotation amounts. *)
Definition S : list Z :=
  [ 7; 12; 17; 22; 7; 12; 17; 22; 7; 12; 17; 22; 7; 12; 17; 22;
    5;  9; 14; 20; 5;  9; 14; 20; 5;  9; 14; 20; 5;  9; 14; 20;
    4; 11; 16; 23; 4; 11; 16; 23; 4; 11; 16; 23; 4; 11; 16; 23;
    6; 10; 15; 21; 6; 10; 15; 21; 6; 10; 15; 21; 6; 10; 15; 21 ].

(** [K[i] = floor (2^32 * |sin (i + 1)|)]. *)
Definition K : list Z :=
  [ 0xd76aa478; 0xe8c7b756; 0x242070db; 0xc1bdceee;
    0xf57c0faf; 0x4787c62a; 0xa8304613; 0xfd469501;
    0x698098d8; 0x8b44f7af; 0xffff5bb1; 0x895cd7be;
    0x6b901122; 0xfd987193; 0xa679438e; 0x49b40821;
    0xf61e2562; 0xc040b340; 0x265e5a51; 0xe9b6c7aa;
    0xd62f105d; 0x02441453; 0xd8a1e681; 0xe7d3fbc8;
    0x21e1cde6; 0xc33707d6; 0xf4d50d87; 0x455a14ed;
    0xa9e3e905; 0xfcefa3f8; 0x676f02d9; 0x8d2a4c8a;
    0xfffa3942; 0x8771f681; 0x6d9d6122; 0xfde5380c;
    0xa4beea44; 0x4bdecfa9; 0xf6bb4b60; 0xbebfbc70;
    0x289b7ec6; 0xeaa127fa; 0xd4ef3085; 0x04881d05;
    0xd9d4d039; 0xe6db99e5; 0x1fa27cf8; 0xc4ac5665;
    0xf4292244; 0x432aff97; 0xab9423a7; 0xfc93a039;
    0x655b59c3; 0x8f0ccc92; 0xffeff47d; 0x85845dd1;
    0x6fa87e4f; 0xfe2ce6e0; 0xa3014314; 0x4e0811a1;
    0xf7537e82; 0xbd3af235; 0x2ad7d2bb; 0xeb86d391 ].

(** The chaining value: the four words A, B, C, D. *)
Record state := State { sA : Z; sB : Z; sC : Z; sD : Z }.

Definition init : state :=
  State 0x67452301 0xefcdab89 0x98badcfe 0x10325476.

(** One of the 64 operations on the 16-word block [M]. *)
Definition round (M : list Z) (st : state) (i : nat) : state :=
  let '(State a b c d) := st in
  let iz := Z.of_nat i in
  let '(f, g) :=
    if iz <? 16 then (F b c d, iz)
    else if iz <? 32 then (G b c d, (5 * iz + 1) mod 16)
    else if iz <? 48 then (H b c d, (3 * iz + 5) mod 16)
    else (I b c d, (7 * iz) mod 16) in
  let f' := add32 (add32 (add32 f a) (nth i K 0)) (nth (Z.to_nat g) M 0) in
  State d (add32 b (rotl32 f' (nth i S 0))) b c.

Definition compress (st : state) (M : list Z) : state :=
  let '(State a b c d) := fold_left (round M) (seq 0 64) st in
  State (add32 (sA st) a) (add32 (sB st) b)
        (add32 (sC st) c) (add32 (sD st) d).

(** Little-endian bytes of a word, and back. *)
Definition le_bytes (n : nat) (x : Z) : list Z :=
  map (fun k => Z.shiftr x (8 * Z.of_nat k) mod 256) (seq 0 n).

Fixpoint le_words (bs : list Z) : list Z :=
  match bs with
  | b0 :: b1 :: b2 :: b3 :: rest =>
      (b0 + Z.shiftl b1 8 + Z.shiftl b2 16 + Z.shiftl b3 24) :: le_words rest
  | _ => []
  end.

(** Padding: a [0x80] byte, zeros up to 56 modulo 64, then the bit length
    as a 64-bit little-endian integer. *)
Definition pad (msg : list Z) : list Z :=
  let len := Z.of_nat (length msg) in
  let zeros := Z.to_nat ((55 - len) mod 64) in
  msg ++ [0x80] ++ repeat 0 zeros ++ le_bytes 8 ((8 * len) mod 2 ^ 64).

Fixpoint blocks (n : nat) (ws : list Z) (st : state) : state :=
  match n with
  | O => st
  | Datatypes.S n' => blocks n' (skipn 16 ws) (compress st (firstn 16 ws))
  end.

Definition digest_words (msg : list Z) : state :=
  let ws := le_words (pad msg) in
  blocks (length ws / 16) ws init.

(** The 16 bytes of the digest. *)
Definition digest (msg : list Z) : list Z :=
  let '(State a b c d) := digest_words msg in
  le_bytes 4 a ++ le_bytes 4 b ++ le_bytes 4 c ++ le_bytes 4 d.

End MD5.

(** ** Python string helpers *)

(** [str.encode()]: the bytes of the text. *)
Definition encode (s : string) : list Z :=
  map (fun c => Z.of_nat (nat_of_ascii c)) (list_ascii_of_string s).

Definition hex_digit (n : Z) : ascii :=
  if (n <? 10)%Z then ascii_of_nat (48 + Z.to_nat n)
  else ascii_of_nat (87 + Z.to_nat n).

Definition hex_byte (b : Z) : string :=
  String (hex_digit (b / 16)) (String (hex_digit (b mod 16)) EmptyString).

(** [hexdigest()]: two lower-case hexadecimal digits per byte. *)
Definition hexdigest (bs : list Z) : string :=
  fold_right (fun b acc => hex_byte b ++ acc) EmptyString bs.

(** The slice [s[:n]]. *)
Fixpoint slice_to (n : nat) (s : string) : string :=
  match n, s with
  | Datatypes.S n', String c s' => String c (slice_to n' s')
  | _, _ => EmptyString
  end.

Definition md5_hexdigest (s : string) : string :=
  hexdigest (MD5.digest (encode s)).

(** ** Exceptions and the state-and-exception monad *)

(** The [cmd_result] dictionary of [RpcCommandError]: its two entries. *)
Record CmdResult := { stdout : string; stderr : string }.

Inductive exn :=
| ValueError (msg : string)
| RpcCommandError (msg : string) (cmd_result : CmdResult)
| BadRequest (description : string)
| ExecuteError (text : string).
    (* any [Exception] raised by [utils.execute]; [text] is its [str] *)

Inductive result (A : Type) :=
| Ok (a : A)
| Raise (e : exn).
Arguments Ok {A} a.
Arguments Raise {A} e.

Definition M (St A : Type) : Type := St -> result A * St.

Definition ret {St A} (a : A) : M St A := fun s => (Ok a, s).

Definition raise {St A} (e : exn) : M St A := fun s => (Raise e, s).

Definition bind {St A B} (m : M St A) (k : A -> M St B) : M St B :=
  fun s =>
    match m s with
    | (Ok a, s') => k a s'
    | (Raise e, s') => (Raise e, s')
    end.

Definition get {St} : M St St := fun s => (Ok s, s).

Definition modify {St} (f : St -> St) : M St unit := fun s => (Ok tt, f s).

(** [try: body / except <classes> as e: handler e].  [handler e = None]
    when no [except] clause matches the class of [e]. *)
Definition try_except {St A} (body : M St A)
    (handler : exn -> option (M St A)) : M St A :=
  fun s =>
    match body s with
    | (Ok a, s') => (Ok a, s')
    | (Raise e, s') =>
        match handler e with
        | Some h => h s'
        | None => (Raise e, s')
        end
    end.

(** [try: body / finally: fin]: [fin] runs whatever [body] did; an
    exception of [fin] replaces the pending outcome. *)
Definition try_finally {St A} (body : M St A) (fin : M St unit) : M St A :=
  fun s =>
    match body s with
    | (r, s') =>
        match fin s' with
        | (Ok _, s'') => (r, s'')
        | (Raise e, s'') => (Raise e, s'')
        end
    end.

(** A method of an inner object, run from a frame holding local variables. *)
Definition lift {St L A} (m : M St A) : M (St * L) A :=
  fun sl =>
    match m (fst sl) with
    | (r, s') => (r, (s', snd sl))
    end.

Declare Scope py_scope.
Delimit Scope py_scope with py.
Notation "x <~ c1 ;; c2" := (bind c1 (fun x => c2))
  (at level 100, c1 at next level, right associativity) : py_scope.
Notation "c1 ;;; c2" := (bind c1 (fun _ => c2))
  (at level 100, right associativity) : py_scope.

(** Truth value of a [str]: non-empty. *)
Definition truthy (s : string) : bool :=
  match s with
  | EmptyString => false
  | String _ _ => true
  end.

(** Truth value of a variable that holds [None] or a [str]. *)
Definition truthy_opt (o : option string) : bool :=
  match o with
  | None => false
  | Some s => truthy s
  end.

(** What one call of [utils.execute] did: it returned the two captured
    streams, or it raised. *)
Inductive exec_outcome :=
| Returned (out err : string)
| Raised (text : string).

(** A reply dictionary such as [{'result': '...'}]. *)
Definition reply : Type := list (string * string).

(** A command reported success: it returned, with an empty error stream. *)
Definition reported_success (o : exec_outcome) : bool :=
  match o with
  | Returned _ err => negb (truthy err)
  | Raised _ => false
  end.

Definition is_Raise {A} (r : result A) : Prop :=
  match r with
  | Ok _ => False
  | Raise _ => True
  end.

(** ** class DeviceManager: name derivation *)

Definition _find_unique_name (prefix ip iqn : string) : string :=
  let unique_hash := slice_to 8 (md5_hexdigest (ip ++ "_" ++ iqn)) in
  let unique_name := prefix ++ unique_hash in
  unique_name.

Section CloudDisk.

(** The environment of the extension. *)
Variable World : Type.
(** [utils.execute( *cmd )]: runs the command in the world. *)
Variable execute : list string -> World -> exec_outcome * World.
(** The effect of rewriting [devices.json] with the given names; a failed
    write is swallowed by [persist_devices], so it is one more [World]. *)
Variable write_devices : gset string -> World -> World.
(** Python's [repr] of a [str]. *)
Variable repr : string -> string.

(** [str] of the [cmd_result] dictionary. *)
Definition str_cmd_result (r : CmdResult) : string :=
  "{'stdout': " ++ repr (stdout r) ++ ", 'stderr': " ++ repr (stderr r) ++ "}".

(** [str(e)]; [RpcCommandError.__str__] appends the command result. *)
Definition str_exn (e : exn) : string :=
  match e with
  | ValueError msg => msg
  | RpcCommandError msg r => msg ++ ". Cmd Result: " ++ str_cmd_result r
  | BadRequest description => "400 Bad Request: " ++ description
  | ExecuteError text => text
  end.

(** The agent: the Name Set, the world outside, and (ghost) the commands
    run so far with what each did. *)
Record Agent := mkAgent {
  _created_devices : gset string;
  world : World;
  calls : list (list string * exec_outcome)
}.

Local Open Scope py_scope.

(** *** class DeviceManager *)

Definition persist_devices : M Agent unit :=
  modify (fun s =>
    mkAgent (_created_devices s)
            (write_devices (_created_devices s) (world s))
            (calls s)).

Definition _generate_unique_name (prefix ip iqn : string) : M Agent string :=
  s <~ get ;;
  let unique_hash := slice_to 8 (md5_hexdigest (ip ++ "_" ++ iqn)) in
  let unique_name := prefix ++ unique_hash in
  if bool_decide (unique_name ∈ _created_devices s)
  then raise (ValueError ("Device name '" ++ unique_name ++ "' already exists."))
  else ret unique_name.

Definition add_device_name (device_name : string) : M Agent unit :=
  modify (fun s =>
    mkAgent ({[device_name]} ∪ _created_devices s) (world s) (calls s)) ;;;
  persist_devices.

Definition remove_device_name (device_name : string) : M Agent unit :=
  modify (fun s =>
    mkAgent (_created_devices s ∖ {[device_name]}) (world s) (calls s)) ;;;
  persist_devices.

Definition get_iscsi_name (ip iqn : string) : M Agent string :=
  _generate_unique_name "iscsi" ip iqn.

Definition get_blk_name (ip iqn : string) : M Agent string :=
  _generate_unique_name "blk" ip iqn.

Definition check_iscsi_name (ip iqn : string) : M Agent string :=
  s <~ get ;;
  let iscsi_name := _find_unique_name "iscsi" ip iqn in
  if negb (bool_decide (iscsi_name ∈ _created_devices s))
  then raise (ValueError ("iSCSI name '" ++ iscsi_name ++ "' does not exist."))
  else ret iscsi_name.

Definition check_blk_name (ip iqn : string) : M Agent string :=
  s <~ get ;;
  let blk_name := _find_unique_name "blk" ip iqn in
  if negb (bool_decide (blk_name ∈ _created_devices s))
  then raise (ValueError ("Block device name '" ++ blk_name ++ "' does not exist."))
  else ret blk_name.

(** *** class RpcManager *)

(** [stdout, stderr = execute( *cmd )], recorded in [calls]. *)
Definition run_execute (cmd : list string) : M Agent (string * string) :=
  fun s =>
    let '(o, w) := execute cmd (world s) in
    let s' := mkAgent (_created_devices s) w (calls s ++ [(cmd, o)]) in
    match o with
    | Returned out err => (Ok (out, err), s')
    | Raised text => (Raise (ExecuteError text), s')
    end.

(** [except Exception as e]: every class of [exn] is an [Exception]. *)
Definition except_Exception {A} (h : exn -> M Agent A)
  : exn -> option (M Agent A) := fun e => Some (h e).

Definition bdev_iscsi_create_cmd (iscsi_value iqn ip : string) : list string :=
  ["nbl_stor_rpc.py"; "bdev_iscsi_create"; "-b"; iscsi_value;
   "-i"; iqn ++ "/0"; "--url"; "iscsi://" ++ ip ++ "/" ++ iqn ++ "/0"].

Definition execute_rpc_create_iscsi_bdev (iqn ip : string) : M Agent string :=
  iscsi_value <~ get_iscsi_name ip iqn ;;
  let cmd := bdev_iscsi_create_cmd iscsi_value iqn ip in
  try_except
    (r <~ run_execute cmd ;;
     let '(stdout, stderr) := r in
     if truthy stderr
     then raise (RpcCommandError
                   ("Error executing bdev_iscsi_create command. Error: " ++ stderr)
                   {| stdout := stdout; stderr := stderr |})
     else add_device_name iscsi_value ;;; ret iscsi_value)
    (except_Exception (fun e =>
       let msg := "Failed to execute bdev_iscsi_create command for IQN "
                  ++ iqn ++ " and IP " ++ ip ++ ": " ++ str_exn e in
       raise (RpcCommandError msg {| stdout := ""; stderr := str_exn e |}))).

Definition emulator_virtio_blk_device_create_cmd (blk_value iscsi_value : string)
  : list string :=
  ["nbl_rpc.py"; "emulator_virtio_blk_device_create"; "--name"; blk_value;
   "--cpumask"; "0x2"; "--num_queues"; "1"; "--bdev_name"; iscsi_value;
   "--rom_idx"; "0"].

Definition execute_rpc_emulator_virtio_blk_device_create
    (iscsi_value ip iqn : string) : M Agent string :=
  blk_value <~ get_blk_name ip iqn ;;
  let cmd := emulator_virtio_blk_device_create_cmd blk_value iscsi_value in
  try_except
    (r <~ run_execute cmd ;;
     let '(stdout, stderr) := r in
     if truthy stderr
     then raise (RpcCommandError
                   ("Error executing emulator_virtio_blk_device_create command. Error: "
                    ++ stderr)
                   {| stdout := stdout; stderr := stderr |})
     else add_device_name blk_value ;;; ret blk_value)
    (except_Exception (fun e =>
       let msg := "Failed to execute emulator_virtio_blk_device_create command for iscsi_value "
                  ++ iscsi_value ++ ": " ++ str_exn e in
       raise (RpcCommandError msg {| stdout := ""; stderr := str_exn e |}))).

Definition emulator_virtio_blk_device_delete_cmd (blk_name : string)
  : list string :=
  ["nbl_rpc.py"; "emulator_virtio_blk_device_delete"; "--name"; blk_name].

Definition execute_rpc_emulator_virtio_blk_device_delete (blk_name : string)
  : M Agent unit :=
  let cmd := emulator_virtio_blk_device_delete_cmd blk_name in
  try_except
    (r <~ run_execute cmd ;;
     let '(stdout, stderr) := r in
     if truthy stderr
     then raise (RpcCommandError
                   ("Error executing emulator_virtio_blk_device_delete command. Error: "
                    ++ stderr)
                   {| stdout := stdout; stderr := stderr |})
     else remove_device_name blk_name)
    (except_Exception (fun e =>
       let msg := "Failed to execute emulator_virtio_blk_device_delete command for block device name "
                  ++ blk_name ++ ": " ++ str_exn e in
       raise (RpcCommandError msg {| stdout := ""; stderr := str_exn e |}))).

Definition bdev_iscsi_delete_cmd (iscsi_name : string) : list string :=
  ["nbl_stor_rpc.py"; "bdev_iscsi_delete"; iscsi_name].

Definition execute_rpc_bdev_iscsi_delete (iscsi_name : string) : M Agent unit :=
  let cmd := bdev_iscsi_delete_cmd iscsi_name in
  try_except
    (r <~ run_execute cmd ;;
     let '(stdout, stderr) := r in
     if truthy stderr
     then raise (RpcCommandError
                   ("Error executing bdev_iscsi_delete command. Error: " ++ stderr)
                   {| stdout := stdout; stderr := stderr |})
     else remove_device_name iscsi_name)
    (except_Exception (fun e =>
       let msg := "Failed to execute bdev_iscsi_delete command for iSCSI name "
                  ++ iscsi_name ++ ": " ++ str_exn e in
       raise (RpcCommandError msg {| stdout := ""; stderr := str_exn e |}))).

(** *** class CloudDiskExtension *)

(** The local variables of [connect_cloud_disk] that its [finally] reads. *)
Record Frame := mkFrame {
  iscsi_value : option string;
  blk_value : option string
}.

Definition set_iscsi_value (v : string) : M (Agent * Frame) unit :=
  modify (fun sl => (fst sl, mkFrame (Some v) (blk_value (snd sl)))).

Definition set_blk_value (v : string) : M (Agent * Frame) unit :=
  modify (fun sl => (fst sl, mkFrame (iscsi_value (snd sl)) (Some v))).

(** The two [except] clauses of [connect_cloud_disk]. *)
Definition connect_except {St A} (e : exn) : option (M St A) :=
  match e with
  | RpcCommandError _ _ => Some (raise (BadRequest "Cloud disk connection failed."))
  | ValueError _ => Some (raise (BadRequest "Command failed with error"))
  | _ => None
  end.

(** The [finally] clause: roll the bdev back when it was created and the
    block device was not; an error of the rollback is swallowed. *)
Definition connect_finally : M (Agent * Frame) unit :=
  sl <~ get ;;
  let f := snd sl in
  if truthy_opt (iscsi_value f) && negb (truthy_opt (blk_value f))
  then
    match iscsi_value f with
    | Some name =>
        try_except (lift (execute_rpc_bdev_iscsi_delete name))
                   (fun rollback_err => Some (ret tt))
    | None => ret tt
    end
  else ret tt.

Definition connect_cloud_disk (iqn ip : string) : M Agent reply :=
  fun s =>
    let run :=
      try_finally
        (try_except
           ((* Step 1: Create iSCSI bdev *)
            v <~ lift (execute_rpc_create_iscsi_bdev iqn ip) ;;
            set_iscsi_value v ;;;
            (* Step 2: Create emulator virtio block device *)
            b <~ lift (execute_rpc_emulator_virtio_blk_device_create v ip iqn) ;;
            set_blk_value b ;;;
            ret [("result", "Cloud disk connected successfully.")])
           connect_except)
        connect_finally in
    match run (s, mkFrame None None) with
    | (r, (s', _)) => (r, s')
    end.

(** [print_all_devices]: it only reads the set and logs; the reply is
    dropped by [disconnect_cloud_disk]. *)
Definition print_all_devices : M Agent reply :=
  s <~ get ;;
  if bool_decide (_created_devices s = ∅)
  then ret [("result", "No device names to print.")]
  else ret [("result", "Printed all device names successfully.")].

(** [time.sleep(seconds)]: the wait changes nothing in the agent. *)
Definition sleep (seconds : Z) : M Agent unit := ret tt.

(** The two [except] clauses of [disconnect_cloud_disk]. *)
Definition disconnect_except {St A} (e : exn) : option (M St A) :=
  match e with
  | RpcCommandError _ _ => Some (raise (BadRequest "Cloud disk disconnection failed."))
  | ValueError _ => Some (raise (BadRequest "Command failed with error."))
  | _ => None
  end.

Definition disconnect_cloud_disk (iqn ip : string) : M Agent reply :=
  try_except
    (print_all_devices ;;;
     (* Step 1: Get the block device name *)
     blk_name <~ check_blk_name ip iqn ;;
     (* Step 2: Delete emulator virtio block device *)
     execute_rpc_emulator_virtio_blk_device_delete blk_name ;;;
     (* Step 3: Get the iSCSI name *)
     iscsi_name <~ check_iscsi_name ip iqn ;;
     sleep 10 ;;;
     (* Step 4: Delete iSCSI bdev *)
     execute_rpc_bdev_iscsi_delete iscsi_name ;;;
     ret [("result", "Cloud disk disconnected successfully.")])
    disconnect_except.

(** *** Vocabulary of the step equations *)

(** The agent after [cmd] ran. *)
Definition called (s : Agent) (cmd : list string) : Agent :=
  mkAgent (_created_devices s) (snd (execute cmd (world s)))
          (calls s ++ [(cmd, fst (execute cmd (world s)))]).

(** The agent after the Name Set became [names] and was persisted. *)
Definition recorded (s : Agent) (names : gset string) : Agent :=
  mkAgent names (write_devices names (world s)) (calls s).

(** The exception raised inside the [try] of a step, if any: the
    [RpcCommandError] of a non-empty error stream, or what [execute] raised. *)
Definition inner_error (what : string) (o : exec_outcome) : option exn :=
  match o with
  | Returned out err =>
      if truthy err
      then Some (RpcCommandError
                   ("Error executing " ++ what ++ " command. Error: " ++ err)
                   {| stdout := out; stderr := err |})
      else None
  | Raised text => Some (ExecuteError text)
  end.

(** The exception a step re-raises from its [except Exception] clause;
    [msg_of] builds the message around [str(e)]. *)
Definition wrapped (msg_of : string -> string) (e : exn) : exn :=
  RpcCommandError (msg_of (str_exn e)) {| stdout := ""; stderr := str_exn e |}.

(** The agent after the rollback of [connect_cloud_disk] ran. *)
Definition rolled_back (name : string) (s : Agent) : Agent :=
  snd (execute_rpc_bdev_iscsi_delete name s).

(** *** Vocabulary of the workflow properties *)

(** A step changes the Name Set by [upd] when its command [cmd] reported
    success, and not at all when the command failed or was not run. *)
Definition mutates_on_success {A} (step : M Agent A) (cmd : list string)
    (upd : gset string -> gset string) : Prop :=
  forall s,
    (calls (snd (step s)) = calls s
     /\ _created_devices (snd (step s)) = _created_devices s)
    \/ (exists o,
          calls (snd (step s)) = (calls s ++ [(cmd, o)])%list
          /\ _created_devices (snd (step s)) =
               if reported_success o then upd (_created_devices s)
               else _created_devices s).

(** [cmd] is a creation command for the resource [name]. *)
Definition creates (name : string) (cmd : list string) : Prop :=
  (exists iqn ip, cmd = bdev_iscsi_create_cmd name iqn ip)
  \/ (exists backing, cmd = emulator_virtio_blk_device_create_cmd name backing).

(** [cmd] is a deletion command for the resource [name]. *)
Definition deletes (name : string) (cmd : list string) : Prop :=
  cmd = bdev_iscsi_delete_cmd name
  \/ cmd = emulator_virtio_blk_device_delete_cmd name.

(** Between [s] and [s']: every name that appeared was created, and every
    name that went away was deleted, by a command run in between that
    reported success. *)
Definition mutations_follow_success (s s' : Agent) : Prop :=
  (forall name,
      name ∈ _created_devices s' -> name ∉ _created_devices s ->
      exists cmd o pre post,
        calls s' = (calls s ++ pre ++ (cmd, o) :: post)%list
        /\ creates name cmd /\ reported_success o = true)
  /\ (forall name,
        name ∈ _created_devices s -> name ∉ _created_devices s' ->
        exists cmd o pre post,
          calls s' = (calls s ++ pre ++ (cmd, o) :: post)%list
          /\ deletes name cmd /\ reported_success o = true).

(** A step that runs [cmd] fails exactly when the error stream is not empty
    or [execute] raised; the [RpcCommandError] it raises then has an empty
    [stdout] entry and, as [stderr] entry, the text of the underlying error:
    the error built from the two captured streams, or what [execute] raised. *)
Definition classifies_failure {A} (step : M Agent A) (cmd : list string)
    (what : string) (invoked : Agent -> Prop) : Prop :=
  forall s, invoked s ->
    let o := fst (execute cmd (world s)) in
    let r := fst (step s) in
    calls (snd (step s)) = (calls s ++ [(cmd, o)])%list
    /\ (is_Raise r <->
          (exists out err, o = Returned out err /\ err <> "")
          \/ (exists text, o = Raised text))
    /\ (forall out err, o = Returned out err -> err <> "" ->
          exists msg,
            r = Raise (RpcCommandError msg
                  {| stdout := "";
                     stderr := str_exn (RpcCommandError
                                 ("Error executing " ++ what
                                  ++ " command. Error: " ++ err)
                                 {| stdout := out; stderr := err |}) |}))
    /\ (forall text, o = Raised text ->
          exists msg,
            r = Raise (RpcCommandError msg {| stdout := ""; stderr := text |})).

(** The attach rollback as the specification words it: when bdev-create
    reported success and front-end-create then failed, the bdev-delete
    command is run for the iscsi name, the Name Set afterwards holds neither
    name, and the caller gets the connection failure. *)
Definition rollback_always_releases (iqn ip : string) (s : Agent) : Prop :=
  let n := _find_unique_name "iscsi" ip iqn in
  let b := _find_unique_name "blk" ip iqn in
  forall o1 o2 rest,
    calls (snd (connect_cloud_disk iqn ip s)) =
      (calls s ++ (bdev_iscsi_create_cmd n iqn ip, o1)
               :: (emulator_virtio_blk_device_create_cmd b n, o2) :: rest)%list ->
    reported_success o1 = true ->
    reported_success o2 = false ->
    (exists o3, rest = [(bdev_iscsi_delete_cmd n, o3)])
    /\ (n ∉ _created_devices (snd (connect_cloud_disk iqn ip s)))
    /\ (b ∉ _created_devices (snd (connect_cloud_disk iqn ip s)))
    /\ fst (connect_cloud_disk iqn ip s)
        = Raise (BadRequest "Cloud disk connection failed.").

(** The detach retry as the specification words it: when front-end-delete
    reported success and bdev-delete then failed, the Name Set afterwards
    holds the iscsi name and not the blk name, and a [disconnect] issued
    again succeeds as soon as its bdev-delete command reports success. *)
Definition detach_retry_succeeds (iqn ip : string) (s : Agent) : Prop :=
  let n := _find_unique_name "iscsi" ip iqn in
  let b := _find_unique_name "blk" ip iqn in
  forall o1 o2,
    calls (snd (disconnect_cloud_disk iqn ip s)) =
      (calls s ++ [(emulator_virtio_blk_device_delete_cmd b, o1);
                   (bdev_iscsi_delete_cmd n, o2)])%list ->
    reported_success o1 = true ->
    reported_success o2 = false ->
    let s' := snd (disconnect_cloud_disk iqn ip s) in
    (n ∈ _created_devices s')
    /\ (b ∉ _created_devices s')
    /\ (reported_success (fst (execute (bdev_iscsi_delete_cmd n) (world s'))) = true ->
        exists rep, fst (disconnect_cloud_disk iqn ip s') = Ok rep).

End CloudDisk.

Arguments mkAgent {World} _ _ _.
Arguments _created_devices {World} _.
Arguments world {World} _.
Arguments calls {World} _.
Arguments called {World} _ _ _.
Arguments recorded {World} _ _ _.

(** ** A scripted world, to run the workflows on concrete inputs

    The world is the list of outcomes the next commands will have; when the
    script is used up a command returns two empty streams.  Writing
    [devices.json] does not change it. *)
Module Script.

Definition World : Type := list exec_outcome.

Definition execute (cmd : list string) (w : World) : exec_outcome * World :=
  match w with
  | [] => (Returned "" "", [])
  | o :: w' => (o, w')
  end.

Definition write_devices (names : gset string) (w : World) : World := w.

(** [repr] of a text without quotes, backslashes or control characters. *)
Definition repr (s : string) : string := "'" ++ s ++ "'".

Definition start (names : gset string) (w : World) : Agent World :=
  mkAgent names w [].

Definition connect (iqn ip : string) :=
  connect_cloud_disk World execute write_devices repr iqn ip.

Definition disconnect (iqn ip : string) :=
  disconnect_cloud_disk World execute write_devices repr iqn ip.

(** The identity of the sample runs. *)
Definition sample_iqn : string := "iqn.2016-06.io.test:disk1".
Definition sample_ip : string := "10.0.0.5".

(** An agent with the sample identity attached, and the outcomes [w] still
    to come. *)
Definition attached (w : World) : Agent World :=
  snd (connect sample_iqn sample_ip
         (start ∅ (Returned "created" "" :: Returned "created" "" :: w))).

(** What a run shows: the result, the names in the set, the commands run. *)
Definition observe {A} (r : result A * Agent World)
  : result A * list string * list (list string) :=
  (fst r, elements (_created_devices (snd r)), map fst (calls (snd r))).

End Script.

(** ** A scripted world that also keeps [devices.json]

    As [Script], with the names last written to the file beside the
    outcomes to come; commands leave the file alone and a write succeeds. *)
Module DiskScript.

Definition World : Type := (list exec_outcome * option (gset string))%type.

Definition execute (cmd : list string) (w : World) : exec_outcome * World :=
  match fst w with
  | [] => (Returned "" "", w)
  | o :: rest => (o, (rest, snd w))
  end.

Definition write_devices (names : gset string) (w : World) : World :=
  (fst w, Some names).

(** The names in [devices.json], if the file was written. *)
Definition disk (w : World) : option (gset string) := snd w.

End DiskScript.

(** ** Vocabulary of the further properties *)

(** No front-end device is recorded without its backing bdev: whenever the
    blk name of an identity is in the Name Set, so is its iscsi name. *)
Definition paired {World} (s : Agent World) : Prop :=
  forall ip iqn,
    _find_unique_name "blk" ip iqn ∈ _created_devices s ->
    _find_unique_name "iscsi" ip iqn ∈ _created_devices s.

(** The reply or the rejection a caller of [connect_cloud_disk] can get. *)
Definition connect_outcome (r : result reply) : Prop :=
  r = Ok [("result", "Cloud disk connected successfully.")]
  \/ r = Raise (BadRequest "Cloud disk connection failed.")
  \/ r = Raise (BadRequest "Command failed with error").

(** The reply or the rejection a caller of [disconnect_cloud_disk] can get. *)
Definition disconnect_outcome (r : result reply) : Prop :=
  r = Ok [("result", "Cloud disk disconnected successfully.")]
  \/ r = Raise (BadRequest "Cloud disk disconnection failed.")
  \/ r = Raise (BadRequest "Command failed with error.").

(** ** The stand-in command-line tool [nbl_rpc.py] *)

Module NblRpc.

Definition newline : string := String "010"%char EmptyString.
Definition quote : string := String "034"%char EmptyString.

(** [sep.join(items)]. *)
Fixpoint join (sep : string) (items : list string) : string :=
  match items with
  | [] => EmptyString
  | [x] => x
  | x :: rest => x ++ sep ++ join sep rest
  end.

(** The table [error_commands] as the file has it: no command fails. *)
Definition shipped_error_commands : gmap string bool :=
  {[ "bdev_iscsi_create" := false;
     "emulator_virtio_blk_device_create" := false;
     "emulator_virtio_blk_device_delete" := false;
     "bdev_iscsi_delete" := false ]}.

(** What [fake_execute] can raise: its own error, or the [IndexError] of
    [command[0]] on an empty command. *)
Inductive raised :=
| FakeCommandError (msg : string)
| IndexError.

(** How the process ends: it exits with its two streams and a status, or it
    dies of an exception nobody catches, having printed [out]. *)
Inductive process :=
| Exited (out err : string) (status : Z)
| Uncaught (out : string) (e : raised).

Section Tool.

(** The table [error_commands]; a tester edits it to make a command fail. *)
Variable error_commands : gmap string bool.
(** [json.dumps] of a [str]. *)
Variable json_str : string -> string.

(** [json.dumps({"status": "success", "message": message})]. *)
Definition success_json (message : string) : string :=
  "{" ++ quote ++ "status" ++ quote ++ ": " ++ quote ++ "success" ++ quote
  ++ ", " ++ quote ++ "message" ++ quote ++ ": " ++ json_str message ++ "}".

(** [fake_execute(command)]: what it printed, and what it returned or
    raised. *)
Definition fake_execute (command : list string) : string * (string + raised) :=
  let printed := "Executing: " ++ join " " command ++ newline in
  match command with
  | [] => (printed, inr IndexError)
  | cmd_key :: _ =>
      if default false (error_commands !! cmd_key)
      then (printed,
            inr (FakeCommandError (cmd_key ++ " command failed as configured")))
      else (printed,
            inl (success_json (cmd_key ++ " command executed successfully")))
  end.

(** The [__main__] block, run with [sys.argv = argv]. *)
Definition main (argv : list string) : process :=
  let args := tail argv in
  match fake_execute args with
  | (out, inl result) => Exited (out ++ result ++ newline) "" 0
  | (out, inr (FakeCommandError msg)) => Exited out (msg ++ newline) 1
  | (out, inr IndexError) => Uncaught out IndexError
  end.

End Tool.

End NblRpc.

(** ** [utils.execute] with its check of the exit status

    [ironic_python_agent.utils.execute] is not part of the extension.  Called
    as the steps call it, with no [check_exit_code] argument, it passes the
    command to [processutils.execute], which returns the two streams of a
    process that exits with status 0, raises [ProcessExecutionError] for any
    other status, and raises as well when the command cannot be started. *)
Module Processes.

(** What running a command did, as the operating system sees it. *)
Inductive process_run :=
| Exits (out err : string) (status : Z)
| CannotLaunch (error : string).

(** The error stream of a run; a command that never started has none. *)
Definition error_stream (p : process_run) : string :=
  match p with
  | Exits _ err _ => err
  | CannotLaunch _ => EmptyString
  end.

Definition launched (p : process_run) : Prop :=
  match p with
  | Exits _ _ _ => True
  | CannotLaunch _ => False
  end.

Section Executor.

(** [str] of the [ProcessExecutionError] raised for a rejected status. *)
Variable exit_error : list string -> string -> string -> Z -> string.

(** What [execute( *cmd )] does with a run of [cmd]. *)
Definition outcome (cmd : list string) (p : process_run) : exec_outcome :=
  match p with
  | Exits out err status =>
      if (status =? 0)%Z then Returned out err
      else Raised (exit_error cmd out err status)
  | CannotLaunch error => Raised error
  end.

(** The world is the list of runs the next commands will have; when it is
    used up a command exits with status 0 and two empty streams. *)
Definition World : Type := list process_run.

Definition execute (cmd : list string) (w : World) : exec_outcome * World :=
  match w with
  | [] => (Returned "" "", [])
  | p :: w' => (outcome cmd p, w')
  end.

Definition write_devices (names : gset string) (w : World) : World := w.

(** The failure classification as the specification words it, for the
    bdev-delete step run on [p]: the step fails exactly when the error
    stream of the command is not empty, whatever its exit status, or the
    command could not be launched. *)
Definition fails_iff_stream_or_no_launch (name : string) (p : process_run)
  : Prop :=
  is_Raise (fst (execute_rpc_bdev_iscsi_delete World execute write_devices
                   Script.repr name (mkAgent ∅ [p] [])))
  <-> (error_stream p <> "" \/ ~ launched p).

End Executor.

End Processes.

(** ** Vocabulary of the properties *)

(** A lower-case hexadecimal digit. *)
Definition is_hex (c : ascii) : bool :=
  let n := nat_of_ascii c in
  ((48 <=? n)%nat && (n <=? 57)%nat) || ((97 <=? n)%nat && (n <=? 102)%nat).

Fixpoint all_hex (s : string) : bool :=
  match s with
  | EmptyString => true
  | String c s' => is_hex c && all_hex s'
  end.

(** * Properties *)

(** ** The digest behaves as [hashlib.md5] on sample inputs *)

Example md5_empty : md5_hexdigest "" = "d41d8cd98f00b204e9800998ecf8427e".
Proof. vm_compute. reflexivity. Qed.

Example md5_abc : md5_hexdigest "abc" = "900150983cd24fb0d6963f7d28e17f72".
Proof. vm_compute. reflexivity. Qed.

Example md5_55 :
  md5_hexdigest (string_of_list_ascii (repeat "x"%char 55))
  = "04364420e25c512fd958a70738aa8f72".
Proof. vm_compute. reflexivity. Qed.

Example md5_56 :
  md5_hexdigest (string_of_list_ascii (repeat "x"%char 56))
  = "668a72d5ba17f08e62dabcafad6db14b".
Proof. vm_compute. reflexivity. Qed.

Example md5_120 :
  md5_hexdigest (string_of_list_ascii (repeat "x"%char 120))
  = "fb98667f98096de92620b64f46e1c5b5".
Proof. vm_compute. reflexivity. Qed.

Example md5_identity :
  md5_hexdigest "10.0.0.5_iqn.2016-06.io.test:disk1"
  = "a7165833aae6110ffe2e76196b7837f5".
Proof. vm_compute. reflexivity. Qed.

(** ** Name derivation *)

Lemma length_le_bytes n x : length (MD5.le_bytes n x) = n.
Proof. unfold MD5.le_bytes. rewrite length_map. apply length_seq. Qed.

Lemma le_bytes_range n x b : In b (MD5.le_bytes n x) -> (0 <= b < 256)%Z.
Proof.
  unfold MD5.le_bytes. rewrite in_map_iff. intros (k & <- & _).
  apply Z.mod_pos_bound. lia.
Qed.

Lemma digest_length msg : length (MD5.digest msg) = 16%nat.
Proof.
  unfold MD5.digest. destruct (MD5.digest_words msg) as [a b c d].
  rewrite !length_app, !length_le_bytes. reflexivity.
Qed.

Lemma digest_range msg b : In b (MD5.digest msg) -> (0 <= b < 256)%Z.
Proof.
  unfold MD5.digest. destruct (MD5.digest_words msg) as [a b' c d].
  rewrite !in_app_iff. intros [H|[H|[H|H]]]; eapply le_bytes_range; eauto.
Qed.

Lemma hex_digit_is_hex n : (0 <= n < 16)%Z -> is_hex (hex_digit n) = true.
Proof.
  intros Hn.
  assert (Hcase : exists k, (k < 16)%nat /\ n = Z.of_nat k).
  { exists (Z.to_nat n). split; lia. }
  destruct Hcase as (k & Hk & ->).
  do 16 (destruct k as [|k]; [reflexivity|]). lia.
Qed.

Lemma append_String c s t : String c s ++ t = String c (s ++ t).
Proof. reflexivity. Qed.

Lemma append_Empty t : "" ++ t = t.
Proof. reflexivity. Qed.

Lemma hexdigest_cons b bs : hexdigest (b :: bs) = hex_byte b ++ hexdigest bs.
Proof. reflexivity. Qed.

Lemma hexdigest_length bs : String.length (hexdigest bs) = (2 * length bs)%nat.
Proof.
  induction bs as [|b bs IH]; [reflexivity|].
  rewrite hexdigest_cons. unfold hex_byte.
  rewrite !append_String, append_Empty.
  cbn [String.length List.length]. rewrite IH. lia.
Qed.

Lemma hexdigest_all_hex bs :
  (forall b, In b bs -> (0 <= b < 256)%Z) -> all_hex (hexdigest bs) = true.
Proof.
  induction bs as [|b bs IH]; intros Hr; [reflexivity|].
  rewrite hexdigest_cons. unfold hex_byte.
  rewrite !append_String, append_Empty. cbn [all_hex].
  assert (Hb : (0 <= b < 256)%Z) by (apply Hr; left; reflexivity).
  rewrite !hex_digit_is_hex.
  - apply IH. intros b' Hb'. apply Hr. right. exact Hb'.
  - apply Z.mod_pos_bound. lia.
  - split; [apply Z.div_pos; lia | apply Z.div_lt_upper_bound; lia].
Qed.

Lemma slice_to_length n s :
  (n <= String.length s)%nat -> String.length (slice_to n s) = n.
Proof.
  revert s. induction n as [|n IH]; intros [|c s] Hn; cbn in *; try lia.
  rewrite IH; lia.
Qed.

Lemma slice_to_all_hex n s : all_hex s = true -> all_hex (slice_to n s) = true.
Proof.
  revert s. induction n as [|n IH]; intros [|c s] Hs; cbn in *; try reflexivity.
  apply andb_true_iff in Hs as [Hc Hs]. rewrite Hc. cbn. apply IH, Hs.
Qed.

Lemma md5_hexdigest_length s : String.length (md5_hexdigest s) = 32%nat.
Proof. unfold md5_hexdigest. rewrite hexdigest_length, digest_length. reflexivity. Qed.

Lemma md5_hexdigest_all_hex s : all_hex (md5_hexdigest s) = true.
Proof. apply hexdigest_all_hex, digest_range. Qed.

Lemma iscsi_name_ne_blk_name ip iqn ip' iqn' :
  _find_unique_name "iscsi" ip iqn <> _find_unique_name "blk" ip' iqn'.
Proof. unfold _find_unique_name. rewrite !append_String. discriminate. Qed.

Lemma generate_unique_name_eq World prefix ip iqn (s : Agent World) :
  _generate_unique_name World prefix ip iqn s =
    if bool_decide (_find_unique_name prefix ip iqn ∈ _created_devices s)
    then (Raise (ValueError ("Device name '" ++ _find_unique_name prefix ip iqn
                             ++ "' already exists.")), s)
    else (Ok (_find_unique_name prefix ip iqn), s).
Proof.
  unfold _generate_unique_name, bind, get, _find_unique_name.
  destruct (bool_decide _); reflexivity.
Qed.

(** C3. [derive] ([_find_unique_name]) returns the kind prefix followed by
    the first 8 characters of the hexadecimal MD5 digest (32 characters,
    whatever the input) of [address ++ "_" ++ qualifiedName]; these 8
    characters are lower-case hexadecimal digits.  Being a function of its
    three arguments alone it gives the same name on the same inputs, and the
    name [allocate] returns in any state of the agent is that same name.  A
    name of kind "iscsi" never equals a name of kind "blk", whatever the two
    identities. *)
Theorem derive_prefix_and_digest (prefix ip iqn : string) :
  (exists h,
      _find_unique_name prefix ip iqn = prefix ++ h
      /\ h = slice_to 8 (md5_hexdigest (ip ++ "_" ++ iqn))
      /\ String.length h = 8%nat
      /\ all_hex h = true)
  /\ String.length (md5_hexdigest (ip ++ "_" ++ iqn)) = 32%nat
  /\ (forall World (s : Agent World),
        match fst (_generate_unique_name World prefix ip iqn s) with
        | Ok n => n = _find_unique_name prefix ip iqn
        | Raise _ => True
        end)
  /\ (forall ip' iqn',
        _find_unique_name "iscsi" ip iqn <> _find_unique_name "blk" ip' iqn').
Proof.
  repeat split.
  - exists (slice_to 8 (md5_hexdigest (ip ++ "_" ++ iqn))).
    repeat split.
    + apply slice_to_length. rewrite md5_hexdigest_length. lia.
    + apply slice_to_all_hex, md5_hexdigest_all_hex.
  - apply md5_hexdigest_length.
  - intros World s. rewrite generate_unique_name_eq.
    destruct (bool_decide _); cbn; trivial.
  - intros ip' iqn'. apply iscsi_name_ne_blk_name.
Qed.

Example derive_iscsi_sample :
  _find_unique_name "iscsi" "10.0.0.5" "iqn.2016-06.io.test:disk1"
  = "iscsia7165833".
Proof. vm_compute. reflexivity. Qed.

Example derive_blk_sample :
  _find_unique_name "blk" "10.0.0.5" "iqn.2016-06.io.test:disk1"
  = "blka7165833".
Proof. vm_compute. reflexivity. Qed.

Lemma append_assoc (a b c : string) : (a ++ b) ++ c = a ++ b ++ c.
Proof.
  induction a as [|ch a IH]; [reflexivity|].
  rewrite !append_String, IH. reflexivity.
Qed.

(** The separator is not escaped: moving a "_" between the address and the
    qualified name keeps the hashed text, hence the name. *)
Lemma find_unique_name_shift prefix a b c :
  _find_unique_name prefix (a ++ "_" ++ b) c
  = _find_unique_name prefix a (b ++ "_" ++ c).
Proof.
  unfold _find_unique_name. rewrite !append_assoc. reflexivity.
Qed.

(** ** The registry *)

(** C6. [allocate] ([_generate_unique_name]) fails, with the [ValueError]
    that stands for NameCollision, if and only if the derived name is in
    the Name Set; otherwise it returns the derived name.  In both cases the
    agent, and so the Name Set, is left as it was. *)
Theorem allocate_raises_iff_present {World} (prefix ip iqn : string)
    (s : Agent World) :
  (is_Raise (fst (_generate_unique_name World prefix ip iqn s))
   <-> _find_unique_name prefix ip iqn ∈ _created_devices s)
  /\ (_find_unique_name prefix ip iqn ∈ _created_devices s ->
      fst (_generate_unique_name World prefix ip iqn s)
      = Raise (ValueError ("Device name '" ++ _find_unique_name prefix ip iqn
                           ++ "' already exists.")))
  /\ (_find_unique_name prefix ip iqn ∉ _created_devices s ->
      fst (_generate_unique_name World prefix ip iqn s)
      = Ok (_find_unique_name prefix ip iqn))
  /\ snd (_generate_unique_name World prefix ip iqn s) = s.
Proof.
  rewrite generate_unique_name_eq.
  destruct (bool_decide_reflect
              (_find_unique_name prefix ip iqn ∈ _created_devices s))
    as [Hin|Hout]; cbn [fst snd is_Raise]; repeat split; tauto.
Qed.

(** ** The steps, as equations *)

Section Properties.

Context {World : Type}.
Variable execute : list string -> World -> exec_outcome * World.
Variable write_devices : gset string -> World -> World.
Variable repr : string -> string.

Local Abbreviation str_exn := (str_exn repr).
Local Abbreviation get_iscsi_name := (get_iscsi_name World).
Local Abbreviation get_blk_name := (get_blk_name World).
Local Abbreviation check_iscsi_name := (check_iscsi_name World).
Local Abbreviation check_blk_name := (check_blk_name World).
Local Abbreviation create_iscsi_bdev :=
  (execute_rpc_create_iscsi_bdev World execute write_devices repr).
Local Abbreviation create_blk_device :=
  (execute_rpc_emulator_virtio_blk_device_create World execute write_devices repr).
Local Abbreviation delete_blk_device :=
  (execute_rpc_emulator_virtio_blk_device_delete World execute write_devices repr).
Local Abbreviation delete_iscsi_bdev :=
  (execute_rpc_bdev_iscsi_delete World execute write_devices repr).
Local Abbreviation connect := (connect_cloud_disk World execute write_devices repr).
Local Abbreviation disconnect := (disconnect_cloud_disk World execute write_devices repr).
Local Abbreviation iscsi_of ip iqn := (_find_unique_name "iscsi" ip iqn).
Local Abbreviation blk_of ip iqn := (_find_unique_name "blk" ip iqn).
Local Abbreviation mutates_on_success := (mutates_on_success World).
Local Abbreviation mutations_follow_success := (mutations_follow_success World).
Local Abbreviation classifies_failure := (classifies_failure World execute repr).
Local Abbreviation called := (called execute).
Local Abbreviation recorded := (recorded write_devices).
Local Abbreviation wrapped := (wrapped repr).
Local Abbreviation rolled_back := (rolled_back World execute write_devices repr).

Implicit Types (s : Agent World) (o : exec_outcome) (ip iqn : string).

Lemma inner_error_None what o :
  inner_error what o = None <-> reported_success o = true.
Proof.
  destruct o as [out err|text]; cbn; [|split; discriminate].
  destruct (truthy err); cbn; split; congruence.
Qed.

Lemma delete_iscsi_bdev_eq name s :
  delete_iscsi_bdev name s =
    let cmd := bdev_iscsi_delete_cmd name in
    match inner_error "bdev_iscsi_delete" (fst (execute cmd (world s))) with
    | None => (Ok tt, recorded (called s cmd) (_created_devices s ∖ {[name]}))
    | Some e =>
        (Raise (wrapped (fun t =>
                  "Failed to execute bdev_iscsi_delete command for iSCSI name "
                  ++ name ++ ": " ++ t) e),
         called s cmd)
    end.
Proof.
  unfold execute_rpc_bdev_iscsi_delete, try_except, bind, run_execute, called.
  cbv zeta. destruct (execute _ _) as [[out err|text] w]; cbn.
  - destruct err; reflexivity.
  - reflexivity.
Qed.

Lemma delete_blk_device_eq name s :
  delete_blk_device name s =
    let cmd := emulator_virtio_blk_device_delete_cmd name in
    match inner_error "emulator_virtio_blk_device_delete"
                      (fst (execute cmd (world s))) with
    | None => (Ok tt, recorded (called s cmd) (_created_devices s ∖ {[name]}))
    | Some e =>
        (Raise (wrapped (fun t =>
                  "Failed to execute emulator_virtio_blk_device_delete command for block device name "
                  ++ name ++ ": " ++ t) e),
         called s cmd)
    end.
Proof.
  unfold execute_rpc_emulator_virtio_blk_device_delete, try_except, bind,
    run_execute, called.
  cbv zeta. destruct (execute _ _) as [[out err|text] w]; cbn.
  - destruct err; reflexivity.
  - reflexivity.
Qed.

Lemma create_iscsi_bdev_eq iqn ip s :
  create_iscsi_bdev iqn ip s =
    let name := iscsi_of ip iqn in
    let cmd := bdev_iscsi_create_cmd name iqn ip in
    if bool_decide (name ∈ _created_devices s)
    then (Raise (ValueError ("Device name '" ++ name ++ "' already exists.")), s)
    else
      match inner_error "bdev_iscsi_create" (fst (execute cmd (world s))) with
      | None =>
          (Ok name, recorded (called s cmd) ({[name]} ∪ _created_devices s))
      | Some e =>
          (Raise (wrapped (fun t =>
                    "Failed to execute bdev_iscsi_create command for IQN "
                    ++ iqn ++ " and IP " ++ ip ++ ": " ++ t) e),
           called s cmd)
      end.
Proof.
  unfold execute_rpc_create_iscsi_bdev, get_iscsi_name.
  unfold bind at 1. rewrite generate_unique_name_eq. cbv zeta.
  destruct (bool_decide _); [reflexivity|].
  unfold try_except, bind, run_execute, called.
  destruct (execute _ _) as [[out err|text] w]; cbn.
  - destruct err; reflexivity.
  - reflexivity.
Qed.

Lemma create_blk_device_eq v ip iqn s :
  create_blk_device v ip iqn s =
    let name := blk_of ip iqn in
    let cmd := emulator_virtio_blk_device_create_cmd name v in
    if bool_decide (name ∈ _created_devices s)
    then (Raise (ValueError ("Device name '" ++ name ++ "' already exists.")), s)
    else
      match inner_error "emulator_virtio_blk_device_create"
                        (fst (execute cmd (world s))) with
      | None =>
          (Ok name, recorded (called s cmd) ({[name]} ∪ _created_devices s))
      | Some e =>
          (Raise (wrapped (fun t =>
                    "Failed to execute emulator_virtio_blk_device_create command for iscsi_value "
                    ++ v ++ ": " ++ t) e),
           called s cmd)
      end.
Proof.
  unfold execute_rpc_emulator_virtio_blk_device_create, get_blk_name.
  unfold bind at 1. rewrite generate_unique_name_eq. cbv zeta.
  destruct (bool_decide _); [reflexivity|].
  unfold try_except, bind, run_execute, called.
  destruct (execute _ _) as [[out err|text] w]; cbn.
  - destruct err; reflexivity.
  - reflexivity.
Qed.

(** ** The workflows, as equations over the step outcomes *)

Lemma truthy_iscsi_name ip iqn : truthy (iscsi_of ip iqn) = true.
Proof. reflexivity. Qed.

Lemma truthy_blk_name ip iqn : truthy (blk_of ip iqn) = true.
Proof. reflexivity. Qed.

Lemma connect_eq iqn ip s :
  connect iqn ip s =
    let n := iscsi_of ip iqn in
    let b := blk_of ip iqn in
    let c1 := bdev_iscsi_create_cmd n iqn ip in
    let c2 := emulator_virtio_blk_device_create_cmd b n in
    if bool_decide (n ∈ _created_devices s)
    then (Raise (BadRequest "Command failed with error"), s)
    else
      match inner_error "bdev_iscsi_create" (fst (execute c1 (world s))) with
      | Some _ =>
          (Raise (BadRequest "Cloud disk connection failed."), called s c1)
      | None =>
          let s1 := recorded (called s c1) ({[n]} ∪ _created_devices s) in
          if bool_decide (b ∈ _created_devices s1)
          then (Raise (BadRequest "Command failed with error"), rolled_back n s1)
          else
            match inner_error "emulator_virtio_blk_device_create"
                              (fst (execute c2 (world s1))) with
            | Some _ =>
                (Raise (BadRequest "Cloud disk connection failed."),
                 rolled_back n (called s1 c2))
            | None =>
                (Ok [("result", "Cloud disk connected successfully.")],
                 recorded (called s1 c2) ({[b]} ∪ _created_devices s1))
            end
      end.
Proof.
  unfold connect_cloud_disk, try_finally, try_except, bind, lift.
  cbn [fst snd]. rewrite create_iscsi_bdev_eq. cbv zeta.
  destruct (bool_decide (iscsi_of ip iqn ∈ _created_devices s)) eqn:Hn.
  { reflexivity. }
  destruct (inner_error "bdev_iscsi_create" _) as [e1|] eqn:He1.
  { destruct e1; reflexivity. }
  cbn [set_iscsi_value modify fst snd blk_value iscsi_value].
  rewrite create_blk_device_eq. cbv zeta.
  set (s1 := recorded _ _).
  destruct (bool_decide (blk_of ip iqn ∈ _created_devices s1)) eqn:Hb.
  { cbn [connect_except raise connect_finally bind get fst snd iscsi_value
         blk_value truthy_opt andb negb].
    rewrite truthy_iscsi_name. cbn [andb].
    unfold try_except, lift, rolled_back. cbn [fst snd].
    destruct (execute_rpc_bdev_iscsi_delete _ _ _ _ _ s1) as [[[]|e] s2];
      reflexivity. }
  destruct (inner_error "emulator_virtio_blk_device_create" _) as [e2|] eqn:He2.
  { set (s2 := called s1 _).
    unfold wrapped at 1.
    cbn [connect_except raise connect_finally bind get fst snd iscsi_value
         blk_value truthy_opt andb negb].
    rewrite truthy_iscsi_name. cbn [andb].
    unfold try_except, lift, rolled_back. cbn [fst snd].
    destruct (execute_rpc_bdev_iscsi_delete _ _ _ _ _ s2) as [[[]|e] s3];
      reflexivity. }
  cbn [set_blk_value modify fst snd blk_value iscsi_value ret
       connect_finally bind get truthy_opt].
  rewrite truthy_iscsi_name, truthy_blk_name. reflexivity.
Qed.

Lemma disconnect_eq iqn ip s :
  disconnect iqn ip s =
    let n := iscsi_of ip iqn in
    let b := blk_of ip iqn in
    let c1 := emulator_virtio_blk_device_delete_cmd b in
    let c2 := bdev_iscsi_delete_cmd n in
    if bool_decide (b ∈ _created_devices s)
    then
      match inner_error "emulator_virtio_blk_device_delete"
                        (fst (execute c1 (world s))) with
      | Some _ =>
          (Raise (BadRequest "Cloud disk disconnection failed."), called s c1)
      | None =>
          let s1 := recorded (called s c1) (_created_devices s ∖ {[b]}) in
          if bool_decide (n ∈ _created_devices s1)
          then
            match inner_error "bdev_iscsi_delete"
                              (fst (execute c2 (world s1))) with
            | Some _ =>
                (Raise (BadRequest "Cloud disk disconnection failed."),
                 called s1 c2)
            | None =>
                (Ok [("result", "Cloud disk disconnected successfully.")],
                 recorded (called s1 c2) (_created_devices s1 ∖ {[n]}))
            end
          else (Raise (BadRequest "Command failed with error."), s1)
      end
    else (Raise (BadRequest "Command failed with error."), s).
Proof.
  unfold disconnect_cloud_disk, try_except, bind at 1.
  unfold print_all_devices, bind at 1. unfold get at 1.
  destruct (bool_decide (_created_devices s = ∅));
    (unfold ret at 1; unfold bind at 1; unfold check_blk_name, bind at 1;
     unfold get at 1;
     destruct (bool_decide (blk_of ip iqn ∈ _created_devices s)); cbn [negb];
     [|reflexivity];
     unfold ret at 1; unfold bind at 1; rewrite delete_blk_device_eq; cbv zeta;
     destruct (inner_error "emulator_virtio_blk_device_delete" _) as [e1|];
     [destruct e1; reflexivity|];
     set (s1 := recorded _ _);
     unfold bind at 1; unfold check_iscsi_name, bind at 1; unfold get at 1;
     destruct (bool_decide (iscsi_of ip iqn ∈ _created_devices s1)); cbn [negb];
     [|reflexivity];
     unfold ret at 1; unfold bind at 1; unfold sleep, ret at 1;
     unfold bind at 1; rewrite delete_iscsi_bdev_eq; cbv zeta;
     destruct (inner_error "bdev_iscsi_delete" _) as [e2|];
     [destruct e2; reflexivity|reflexivity]).
Qed.

Lemma match_inner_error {T} what o (X Y : T) :
  match inner_error what o with Some _ => X | None => Y end
  = if reported_success o then Y else X.
Proof.
  destruct o as [out err|text]; cbn; [|reflexivity].
  destruct (truthy err); reflexivity.
Qed.

Lemma rolled_back_eq n s :
  rolled_back n s =
    let c := bdev_iscsi_delete_cmd n in
    if reported_success (fst (execute c (world s)))
    then recorded (called s c) (_created_devices s ∖ {[n]})
    else called s c.
Proof.
  unfold rolled_back. rewrite delete_iscsi_bdev_eq. cbv zeta.
  rewrite <- match_inner_error with (what := "bdev_iscsi_delete").
  destruct (inner_error _ _); reflexivity.
Qed.

(** The attach workflow, by the outcome of each command. *)
Lemma connect_by_outcome iqn ip s :
  connect iqn ip s =
    let n := iscsi_of ip iqn in
    let b := blk_of ip iqn in
    let c1 := bdev_iscsi_create_cmd n iqn ip in
    let c2 := emulator_virtio_blk_device_create_cmd b n in
    if bool_decide (n ∈ _created_devices s)
    then (Raise (BadRequest "Command failed with error"), s)
    else if reported_success (fst (execute c1 (world s)))
    then
      let s1 := recorded (called s c1) ({[n]} ∪ _created_devices s) in
      if bool_decide (b ∈ _created_devices s1)
      then (Raise (BadRequest "Command failed with error"), rolled_back n s1)
      else if reported_success (fst (execute c2 (world s1)))
      then (Ok [("result", "Cloud disk connected successfully.")],
            recorded (called s1 c2) ({[b]} ∪ _created_devices s1))
      else (Raise (BadRequest "Cloud disk connection failed."),
            rolled_back n (called s1 c2))
    else (Raise (BadRequest "Cloud disk connection failed."), called s c1).
Proof.
  rewrite connect_eq. cbv zeta. rewrite !match_inner_error. reflexivity.
Qed.

(** The detach workflow, by the outcome of each command. *)
Lemma disconnect_by_outcome iqn ip s :
  disconnect iqn ip s =
    let n := iscsi_of ip iqn in
    let b := blk_of ip iqn in
    let c1 := emulator_virtio_blk_device_delete_cmd b in
    let c2 := bdev_iscsi_delete_cmd n in
    if bool_decide (b ∈ _created_devices s)
    then
      if reported_success (fst (execute c1 (world s)))
      then
        let s1 := recorded (called s c1) (_created_devices s ∖ {[b]}) in
        if bool_decide (n ∈ _created_devices s1)
        then
          if reported_success (fst (execute c2 (world s1)))
          then (Ok [("result", "Cloud disk disconnected successfully.")],
                recorded (called s1 c2) (_created_devices s1 ∖ {[n]}))
          else (Raise (BadRequest "Cloud disk disconnection failed."),
                called s1 c2)
        else (Raise (BadRequest "Command failed with error."), s1)
      else (Raise (BadRequest "Cloud disk disconnection failed."), called s c1)
    else (Raise (BadRequest "Command failed with error."), s).
Proof.
  rewrite disconnect_eq. cbv zeta. rewrite !match_inner_error. reflexivity.
Qed.

(** ** The workflows rejected before any command *)

(** Resolving the blk name of an identity whose blk name is not recorded
    stops the detach workflow before any command. *)
Lemma disconnect_blk_absent iqn ip s :
  blk_of ip iqn ∉ _created_devices s ->
  check_blk_name ip iqn s
  = (Raise (ValueError ("Block device name '" ++ blk_of ip iqn
                        ++ "' does not exist.")), s)
  /\ disconnect iqn ip s = (Raise (BadRequest "Command failed with error."), s).
Proof.
  intros Hb. split.
  - unfold check_blk_name, bind, get.
    rewrite (bool_decide_eq_false_2 _ Hb). reflexivity.
  - rewrite disconnect_by_outcome. cbv zeta.
    rewrite (bool_decide_eq_false_2 _ Hb). reflexivity.
Qed.

(** An attach for an identity whose iscsi name is recorded is rejected at
    step 1, before any command. *)
Lemma connect_iscsi_present iqn ip s :
  iscsi_of ip iqn ∈ _created_devices s ->
  create_iscsi_bdev iqn ip s
  = (Raise (ValueError ("Device name '" ++ iscsi_of ip iqn
                        ++ "' already exists.")), s)
  /\ connect iqn ip s = (Raise (BadRequest "Command failed with error"), s).
Proof.
  intros Hn. split.
  - rewrite create_iscsi_bdev_eq. cbv zeta.
    rewrite (bool_decide_eq_true_2 _ Hn). reflexivity.
  - rewrite connect_by_outcome. cbv zeta.
    rewrite (bool_decide_eq_true_2 _ Hn). reflexivity.
Qed.

(** A successful attach started without either name and recorded both. *)
Lemma connect_success_inv iqn ip s rep s1 :
  connect iqn ip s = (Ok rep, s1) ->
  (iscsi_of ip iqn ∉ _created_devices s)
  /\ (blk_of ip iqn ∉ _created_devices s)
  /\ _created_devices s1
     = {[blk_of ip iqn]} ∪ ({[iscsi_of ip iqn]} ∪ _created_devices s).
Proof.
  rewrite connect_by_outcome. cbv zeta.
  destruct (bool_decide_reflect (iscsi_of ip iqn ∈ _created_devices s))
    as [Hn|Hn]; [discriminate|].
  destruct (reported_success _); [|discriminate].
  cbn [recorded _created_devices called].
  destruct (bool_decide_reflect
              (blk_of ip iqn ∈ {[iscsi_of ip iqn]} ∪ _created_devices s))
    as [Hb|Hb]; [discriminate|].
  destruct (reported_success _); [|discriminate].
  intros [= <- <-]. cbn. repeat split; [exact Hn|set_solver].
Qed.

(** C5. A detach for an identity neither of whose names is in the Name Set
    fails at step 1: resolving the blk name raises the [ValueError] that
    stands for NotFound, which the caller sees as a rejected request.  The
    agent afterwards is the agent before: no command was run ([calls] and
    the world are the same) and the Name Set is unchanged. *)
Theorem disconnect_unknown_identity iqn ip s :
  iscsi_of ip iqn ∉ _created_devices s ->
  blk_of ip iqn ∉ _created_devices s ->
  check_blk_name ip iqn s
  = (Raise (ValueError ("Block device name '" ++ blk_of ip iqn
                        ++ "' does not exist.")), s)
  /\ disconnect iqn ip s = (Raise (BadRequest "Command failed with error."), s)
  /\ calls (snd (disconnect iqn ip s)) = calls s
  /\ _created_devices (snd (disconnect iqn ip s)) = _created_devices s.
Proof.
  intros _ Hb. destruct (disconnect_blk_absent iqn ip s Hb) as [H1 H2].
  rewrite H2. repeat split; assumption.
Qed.

(** C4. When an attach has succeeded, the Name Set is the one before plus
    the iscsi and the blk name of the identity (both new).  An attach for
    the same identity from that state fails at step 1: allocating the iscsi
    name raises the [ValueError] that stands for NameCollision, the caller
    sees a rejected request, and the agent is left as the first attach left
    it, so the Name Set still holds exactly that one pair more. *)
Theorem duplicate_connect_rejected iqn ip s rep s1 :
  connect iqn ip s = (Ok rep, s1) ->
  (iscsi_of ip iqn ∉ _created_devices s)
  /\ (blk_of ip iqn ∉ _created_devices s)
  /\ _created_devices s1
     = {[blk_of ip iqn]} ∪ ({[iscsi_of ip iqn]} ∪ _created_devices s)
  /\ create_iscsi_bdev iqn ip s1
     = (Raise (ValueError ("Device name '" ++ iscsi_of ip iqn
                           ++ "' already exists.")), s1)
  /\ connect iqn ip s1 = (Raise (BadRequest "Command failed with error"), s1)
  /\ _created_devices (snd (connect iqn ip s1))
     = {[blk_of ip iqn]} ∪ ({[iscsi_of ip iqn]} ∪ _created_devices s).
Proof.
  intros Hok. destruct (connect_success_inv _ _ _ _ _ Hok) as (Hn & Hb & Hset).
  assert (Hin : iscsi_of ip iqn ∈ _created_devices s1).
  { rewrite Hset. set_solver. }
  destruct (connect_iscsi_present iqn ip s1 Hin) as [H1 H2].
  rewrite H2. repeat split; assumption.
Qed.

(** C10. The identities (address "a_b", qualified name "c") and (address
    "a", qualified name "b_c") differ, yet for every kind prefix they derive
    the same name, since both hash the text "a_b_c".  Hence once one of them
    is attached, an attach of the other is rejected as a collision at
    step 1, leaving the agent as it was. *)
Theorem derive_not_injective :
  ("a_b", "c") <> ("a", "b_c")
  /\ (forall prefix,
        _find_unique_name prefix "a_b" "c" = _find_unique_name prefix "a" "b_c")
  /\ (forall s rep s1,
        connect "c" "a_b" s = (Ok rep, s1) ->
        connect "b_c" "a" s1
        = (Raise (BadRequest "Command failed with error"), s1))
  /\ (forall s rep s1,
        connect "b_c" "a" s = (Ok rep, s1) ->
        connect "c" "a_b" s1
        = (Raise (BadRequest "Command failed with error"), s1)).
Proof.
  assert (Hsame : forall prefix,
             _find_unique_name prefix "a_b" "c" = _find_unique_name prefix "a" "b_c").
  { intros prefix. apply (find_unique_name_shift prefix "a" "b" "c"). }
  split; [|split; [|split]].
  - discriminate.
  - exact Hsame.
  - intros s rep s1 Hok.
    destruct (connect_success_inv _ _ _ _ _ Hok) as (_ & _ & Hset).
    apply connect_iscsi_present. rewrite <- Hsame, Hset. set_solver.
  - intros s rep s1 Hok.
    destruct (connect_success_inv _ _ _ _ _ Hok) as (_ & _ & Hset).
    apply connect_iscsi_present. rewrite Hsame, Hset. set_solver.
Qed.

(** ** Reading a workflow off its trace *)

Lemma calls_rolled_back n s :
  calls (rolled_back n s)
  = (calls s ++ [(bdev_iscsi_delete_cmd n,
                  fst (execute (bdev_iscsi_delete_cmd n) (world s)))])%list.
Proof.
  rewrite rolled_back_eq. cbv zeta. destruct (reported_success _); reflexivity.
Qed.

Lemma devices_rolled_back n s :
  _created_devices (rolled_back n s)
  = if reported_success (fst (execute (bdev_iscsi_delete_cmd n) (world s)))
    then _created_devices s ∖ {[n]}
    else _created_devices s.
Proof.
  rewrite rolled_back_eq. cbv zeta. destruct (reported_success _); reflexivity.
Qed.

(** Cancels the common prefix of two traces and compares what follows. *)
Ltac trace_inv H :=
  repeat match goal with x := _ : Agent _ |- _ => subst x end;
  cbn [calls called recorded snd] in H;
  rewrite ?calls_rolled_back in H;
  cbn [calls called recorded snd] in H;
  rewrite <- ?app_assoc in H;
  lazymatch type of H with
  | calls ?s = (calls ?s ++ _)%list =>
      rewrite <- (app_nil_r (calls s)) in H at 1
  | _ => idtac
  end;
  apply app_inv_head in H;
  cbn [app] in H;
  try discriminate H.

(** An attach whose trace starts with the two creation commands went
    through both allocations, and bdev-create reported success. *)
Lemma connect_trace_inv iqn ip s o1 o2 rest :
  let n := iscsi_of ip iqn in
  let b := blk_of ip iqn in
  let c1 := bdev_iscsi_create_cmd n iqn ip in
  let c2 := emulator_virtio_blk_device_create_cmd b n in
  let s1 := recorded (called s c1) ({[n]} ∪ _created_devices s) in
  calls (snd (connect iqn ip s)) = (calls s ++ (c1, o1) :: (c2, o2) :: rest)%list ->
  (n ∉ _created_devices s)
  /\ (b ∉ _created_devices s)
  /\ o1 = fst (execute c1 (world s))
  /\ reported_success o1 = true
  /\ o2 = fst (execute c2 (world s1))
  /\ connect iqn ip s
     = if reported_success o2
       then (Ok [("result", "Cloud disk connected successfully.")],
             recorded (called s1 c2) ({[b]} ∪ _created_devices s1))
       else (Raise (BadRequest "Cloud disk connection failed."),
             rolled_back n (called s1 c2)).
Proof.
  intros n b c1 c2 s1. rewrite connect_by_outcome. cbv zeta.
  fold n b c1 c2 s1.
  destruct (bool_decide_reflect (n ∈ _created_devices s)) as [Hn|Hn].
  { intros H. trace_inv H. }
  destruct (reported_success (fst (execute c1 (world s)))) eqn:Ho1.
  2:{ intros H. trace_inv H. }
  destruct (bool_decide_reflect (b ∈ _created_devices s1)) as [Hb|Hb].
  { intros H. trace_inv H. }
  assert (Hb0 : b ∉ _created_devices s).
  { intros Hin. apply Hb. subst s1. cbn. set_solver. }
  destruct (reported_success (fst (execute c2 (world s1)))) eqn:Ho2;
    intros H; trace_inv H; injection H as E1 E2 _;
    (assert (X1 : o1 = fst (execute c1 (world s)))
       by (symmetry; exact E1));
    match type of Ho2 with
    | reported_success ?e = _ =>
        assert (X2 : o2 = e) by (symmetry; exact E2)
    end;
    rewrite X2 at 2; rewrite Ho2, X1;
    repeat split; assumption.
Qed.

(** A detach whose trace is the two deletion commands resolved both names,
    and front-end-delete reported success. *)
Lemma disconnect_trace_inv iqn ip s o1 o2 :
  let n := iscsi_of ip iqn in
  let b := blk_of ip iqn in
  let c1 := emulator_virtio_blk_device_delete_cmd b in
  let c2 := bdev_iscsi_delete_cmd n in
  let s1 := recorded (called s c1) (_created_devices s ∖ {[b]}) in
  calls (snd (disconnect iqn ip s)) = (calls s ++ [(c1, o1); (c2, o2)])%list ->
  (n ∈ _created_devices s)
  /\ (b ∈ _created_devices s)
  /\ o1 = fst (execute c1 (world s))
  /\ reported_success o1 = true
  /\ o2 = fst (execute c2 (world s1))
  /\ disconnect iqn ip s
     = if reported_success o2
       then (Ok [("result", "Cloud disk disconnected successfully.")],
             recorded (called s1 c2) (_created_devices s1 ∖ {[n]}))
       else (Raise (BadRequest "Cloud disk disconnection failed."),
             called s1 c2).
Proof.
  intros n b c1 c2 s1. rewrite disconnect_by_outcome. cbv zeta.
  fold n b c1 c2 s1.
  destruct (bool_decide_reflect (b ∈ _created_devices s)) as [Hb|Hb].
  2:{ intros H. trace_inv H. }
  destruct (reported_success (fst (execute c1 (world s)))) eqn:Ho1.
  2:{ intros H. trace_inv H. }
  destruct (bool_decide_reflect (n ∈ _created_devices s1)) as [Hn|Hn].
  2:{ intros H. trace_inv H. }
  assert (Hn0 : n ∈ _created_devices s).
  { subst s1. cbn in Hn. set_solver. }
  destruct (reported_success (fst (execute c2 (world s1)))) eqn:Ho2;
    intros H; trace_inv H; injection H as E1 E2;
    (assert (X1 : o1 = fst (execute c1 (world s)))
       by (symmetry; exact E1));
    match type of Ho2 with
    | reported_success ?e = _ =>
        assert (X2 : o2 = e) by (symmetry; exact E2)
    end;
    rewrite X2 at 2; rewrite Ho2, X1;
    repeat split; assumption.
Qed.


(** C1, as the code has it.  In an attach where the bdev-create command
    reported success and the front-end-create command then failed, the
    bdev-delete command is run once for the iscsi name and nothing else is
    run; whatever that rollback does, the caller gets the connection failure
    of the attach and the blk name is not in the Name Set.  When the rollback
    delete reports success, the iscsi name is released: the Name Set is the
    one before the attach and holds neither name.  Only then: when the
    rollback delete fails, the iscsi name stays in the Name Set. *)
Theorem attach_rollback_on_delete_success iqn ip s o1 o2 rest :
  calls (snd (connect iqn ip s)) =
    (calls s ++ (bdev_iscsi_create_cmd (iscsi_of ip iqn) iqn ip, o1)
             :: (emulator_virtio_blk_device_create_cmd
                   (blk_of ip iqn) (iscsi_of ip iqn), o2) :: rest)%list ->
  reported_success o1 = true ->
  reported_success o2 = false ->
  fst (connect iqn ip s) = Raise (BadRequest "Cloud disk connection failed.")
  /\ (blk_of ip iqn ∉ _created_devices (snd (connect iqn ip s)))
  /\ exists o3,
       rest = [(bdev_iscsi_delete_cmd (iscsi_of ip iqn), o3)]
       /\ (reported_success o3 = true ->
           (iscsi_of ip iqn ∉ _created_devices (snd (connect iqn ip s)))
           /\ _created_devices (snd (connect iqn ip s)) = _created_devices s)
       /\ (reported_success o3 = false ->
           iscsi_of ip iqn ∈ _created_devices (snd (connect iqn ip s))).
Proof.
  intros Hcalls Ho1 Ho2.
  destruct (connect_trace_inv _ _ _ _ _ _ Hcalls)
    as (Hn & Hb & E1 & _ & E2 & Heq).
  rewrite Ho2 in Heq. rewrite Heq in Hcalls |- *. cbn [fst snd] in *.
  split; [reflexivity|].
  rewrite devices_rolled_back. rewrite calls_rolled_back in Hcalls.
  cbn [calls called recorded world _created_devices] in *.
  assert (Hne := iscsi_name_ne_blk_name ip iqn ip iqn).
  rewrite <- !app_assoc in Hcalls. apply app_inv_head in Hcalls.
  cbn [app] in Hcalls. injection Hcalls as _ _ <-.
  clear E1 E2 Heq Ho1 Ho2.
  split.
  - destruct (reported_success _); set_solver.
  - eexists. split; [reflexivity|]. split.
    + intros ->. split; set_solver.
    + intros ->. set_solver.
Qed.


(** C2, as the code has it.  In a detach where the front-end-delete command
    reported success and the bdev-delete command then failed, the caller
    gets the disconnection failure and the Name Set is the one before
    without the blk name: the iscsi name is in it, the blk name is not.  A
    detach issued again for the same identity from that state is rejected
    at step 1, because the blk name is no longer there to resolve: it runs no
    command and leaves the agent, the iscsi name included, as it was. *)
Theorem detach_partial_failure_blocks_retry iqn ip s o1 o2 :
  calls (snd (disconnect iqn ip s)) =
    (calls s ++ [(emulator_virtio_blk_device_delete_cmd (blk_of ip iqn), o1);
                 (bdev_iscsi_delete_cmd (iscsi_of ip iqn), o2)])%list ->
  reported_success o1 = true ->
  reported_success o2 = false ->
  fst (disconnect iqn ip s) = Raise (BadRequest "Cloud disk disconnection failed.")
  /\ _created_devices (snd (disconnect iqn ip s))
     = _created_devices s ∖ {[blk_of ip iqn]}
  /\ (iscsi_of ip iqn ∈ _created_devices (snd (disconnect iqn ip s)))
  /\ (blk_of ip iqn ∉ _created_devices (snd (disconnect iqn ip s)))
  /\ disconnect iqn ip (snd (disconnect iqn ip s))
     = (Raise (BadRequest "Command failed with error."),
        snd (disconnect iqn ip s)).
Proof.
  intros Hcalls Ho1 Ho2.
  destruct (disconnect_trace_inv _ _ _ _ _ Hcalls)
    as (Hn & Hb & E1 & _ & E2 & Heq).
  rewrite Ho2 in Heq. rewrite Heq. cbn [fst snd].
  cbn [calls called recorded world _created_devices].
  assert (Hne := iscsi_name_ne_blk_name ip iqn ip iqn).
  split; [reflexivity|]. split; [reflexivity|].
  split; [set_solver|]. split; [set_solver|].
  apply disconnect_blk_absent. cbn. set_solver.
Qed.

(** ** The Name Set changes only after a command reported success *)

(** Names the outcome of the command of a step and follows each case. *)
Ltac step_outcome :=
  match goal with
  | |- context [inner_error _ (fst (execute ?c (world ?s)))] =>
      exists (fst (execute c (world s)));
      destruct (fst (execute c (world s))) as [out [|ch err]|text] eqn:Ho;
      cbn [inner_error truthy snd calls called recorded _created_devices
           reported_success negb];
      rewrite ?Ho; split; reflexivity
  end.

Lemma create_iscsi_bdev_mutation iqn ip :
  mutates_on_success (create_iscsi_bdev iqn ip)
    (bdev_iscsi_create_cmd (iscsi_of ip iqn) iqn ip)
    (fun names => {[iscsi_of ip iqn]} ∪ names).
Proof.
  intros s. rewrite create_iscsi_bdev_eq. cbv zeta.
  destruct (bool_decide _); [left; split; reflexivity|].
  right. step_outcome.
Qed.

Lemma create_blk_device_mutation v ip iqn :
  mutates_on_success (create_blk_device v ip iqn)
    (emulator_virtio_blk_device_create_cmd (blk_of ip iqn) v)
    (fun names => {[blk_of ip iqn]} ∪ names).
Proof.
  intros s. rewrite create_blk_device_eq. cbv zeta.
  destruct (bool_decide _); [left; split; reflexivity|].
  right. step_outcome.
Qed.

Lemma delete_blk_device_mutation name :
  mutates_on_success (delete_blk_device name)
    (emulator_virtio_blk_device_delete_cmd name)
    (fun names => names ∖ {[name]}).
Proof.
  intros s. rewrite delete_blk_device_eq. cbv zeta.
  right. step_outcome.
Qed.

Lemma delete_iscsi_bdev_mutation name :
  mutates_on_success (delete_iscsi_bdev name)
    (bdev_iscsi_delete_cmd name)
    (fun names => names ∖ {[name]}).
Proof.
  intros s. rewrite delete_iscsi_bdev_eq. cbv zeta.
  right. step_outcome.
Qed.

(** Closes a goal [calls s' = calls s ++ pre ++ entry :: post] once [pre]
    and [post] are known. *)
Ltac trace_shape :=
  cbn [calls called recorded snd];
  rewrite ?calls_rolled_back;
  cbn [calls called recorded snd];
  rewrite <- ?app_assoc; reflexivity.

Lemma connect_mutations iqn ip s :
  mutations_follow_success s (snd (connect iqn ip s)).
Proof.
  assert (Hne := iscsi_name_ne_blk_name ip iqn ip iqn).
  rewrite connect_by_outcome. cbv zeta.
  set (n := iscsi_of ip iqn) in *. set (b := blk_of ip iqn) in *.
  set (c1 := bdev_iscsi_create_cmd n iqn ip).
  set (c2 := emulator_virtio_blk_device_create_cmd b n).
  assert (Hc1 : creates n c1) by (left; exists iqn, ip; reflexivity).
  assert (Hc2 : creates b c2) by (right; exists n; reflexivity).
  destruct (bool_decide_reflect (n ∈ _created_devices s)) as [Hn|Hn].
  { split; intros name H1 H2; cbn in *; contradiction. }
  destruct (reported_success (fst (execute c1 (world s)))) eqn:Ho1.
  2:{ split; intros name H1 H2; cbn in *; contradiction. }
  set (s1 := recorded (called s c1) ({[n]} ∪ _created_devices s)).
  destruct (bool_decide_reflect (b ∈ _created_devices s1)) as [Hb|Hb].
  { cbn [snd]. split; intros name; rewrite devices_rolled_back;
      destruct (reported_success (fst (execute (bdev_iscsi_delete_cmd n)
                                               (world s1)))) eqn:Ho3;
      subst s1; cbn [_created_devices recorded]; intros H1 H2.
    - exfalso. set_solver.
    - assert (name = n) as -> by set_solver.
      exists c1, (fst (execute c1 (world s))), [],
        [(bdev_iscsi_delete_cmd n,
          fst (execute (bdev_iscsi_delete_cmd n)
                 (world (recorded (called s c1) ({[n]} ∪ _created_devices s)))))].
      split; [trace_shape|]. split; assumption.
    - exfalso. set_solver.
    - exfalso. set_solver. }
  destruct (reported_success (fst (execute c2 (world s1)))) eqn:Ho2.
  { cbn [snd]. subst s1. cbn [_created_devices recorded] in *.
    split; intros name H1 H2; [|exfalso; set_solver].
    assert (Hcase : name = n \/ name = b) by set_solver.
    destruct Hcase as [-> | ->].
    - eexists c1, _, [], [_]. split; [trace_shape|]. split; assumption.
    - eexists c2, _, [_], []. split; [trace_shape|]. split; assumption. }
  cbn [snd]. split; intros name; rewrite devices_rolled_back;
    destruct (reported_success (fst (execute (bdev_iscsi_delete_cmd n)
                                             (world (called s1 c2))))) eqn:Ho3;
    subst s1; cbn [_created_devices recorded called]; intros H1 H2.
  - exfalso. set_solver.
  - assert (name = n) as -> by set_solver.
    eexists c1, _, [], [_; _]. split; [trace_shape|]. split; assumption.
  - exfalso. set_solver.
  - exfalso. set_solver.
Qed.

Lemma disconnect_mutations iqn ip s :
  mutations_follow_success s (snd (disconnect iqn ip s)).
Proof.
  rewrite disconnect_by_outcome. cbv zeta.
  set (n := iscsi_of ip iqn) in *. set (b := blk_of ip iqn) in *.
  set (c1 := emulator_virtio_blk_device_delete_cmd b).
  set (c2 := bdev_iscsi_delete_cmd n).
  assert (Hc1 : deletes b c1) by (right; reflexivity).
  assert (Hc2 : deletes n c2) by (left; reflexivity).
  destruct (bool_decide_reflect (b ∈ _created_devices s)) as [Hb|Hb].
  2:{ split; intros name H1 H2; cbn in *; contradiction. }
  destruct (reported_success (fst (execute c1 (world s)))) eqn:Ho1.
  2:{ split; intros name H1 H2; cbn in *; contradiction. }
  set (s1 := recorded (called s c1) (_created_devices s ∖ {[b]})).
  destruct (bool_decide_reflect (n ∈ _created_devices s1)) as [Hn|Hn].
  2:{ cbn [snd]. subst s1. cbn [_created_devices recorded] in *.
      split; intros name H1 H2; [exfalso; set_solver|].
      destruct (decide (name = b)) as [->|Hnb]; [|exfalso; set_solver].
      eexists c1, _, [], []. split; [trace_shape|]. split; assumption. }
  destruct (reported_success (fst (execute c2 (world s1)))) eqn:Ho2;
    cbn [snd]; subst s1; cbn [_created_devices recorded called] in *;
    (split; intros name H1 H2; [exfalso; set_solver|]).
  - assert (Hcase : name = b \/ name = n).
    { destruct (decide (name = b)); [left; assumption|].
      destruct (decide (name = n)); [right; assumption|].
      exfalso. set_solver. }
    destruct Hcase as [-> | ->].
    + eexists c1, _, [], [_]. split; [trace_shape|]. split; assumption.
    + eexists c2, _, [_], []. split; [trace_shape|]. split; assumption.
  - destruct (decide (name = b)) as [->|Hnb]; [|exfalso; set_solver].
    eexists c1, _, [], [_]. split; [trace_shape|]. split; assumption.
Qed.

(** C8. Each of the four steps either runs no command and leaves the Name
    Set alone, or runs its one command and then: inserts its name (the two
    creation steps) or removes it (the two deletion steps) when the command
    reported success, and leaves the Name Set as it was when the command
    failed.  Over a whole attach or detach, every name that appeared in the
    Name Set has a creation command for it in the trace that reported
    success, and every name that went away has a deletion command for it
    that reported success; the rollback of the attach is one of these
    deletion steps. *)
Theorem name_set_changes_only_on_success iqn ip backing name :
  mutates_on_success (create_iscsi_bdev iqn ip)
    (bdev_iscsi_create_cmd (iscsi_of ip iqn) iqn ip)
    (fun names => {[iscsi_of ip iqn]} ∪ names)
  /\ mutates_on_success (create_blk_device backing ip iqn)
       (emulator_virtio_blk_device_create_cmd (blk_of ip iqn) backing)
       (fun names => {[blk_of ip iqn]} ∪ names)
  /\ mutates_on_success (delete_blk_device name)
       (emulator_virtio_blk_device_delete_cmd name)
       (fun names => names ∖ {[name]})
  /\ mutates_on_success (delete_iscsi_bdev name)
       (bdev_iscsi_delete_cmd name)
       (fun names => names ∖ {[name]})
  /\ (forall s, mutations_follow_success s (snd (connect iqn ip s)))
  /\ (forall s, mutations_follow_success s (snd (disconnect iqn ip s))).
Proof.
  split; [apply create_iscsi_bdev_mutation|].
  split; [apply create_blk_device_mutation|].
  split; [apply delete_blk_device_mutation|].
  split; [apply delete_iscsi_bdev_mutation|].
  split; [apply connect_mutations|apply disconnect_mutations].
Qed.

(** ** How a step classifies the outcome of its command *)

(** Every step has the same shape once its command is run; the
    classification follows from that shape. *)
Lemma classifies_failure_of_shape {A} (step : M (Agent World) A)
    (cmd : list string) (what : string) (invoked : Agent World -> Prop)
    (msg_of : string -> string) (a : A) (upd : gset string -> gset string) :
  (forall s, invoked s ->
     step s =
       match inner_error what (fst (execute cmd (world s))) with
       | None => (Ok a, recorded (called s cmd) (upd (_created_devices s)))
       | Some e => (Raise (wrapped msg_of e), called s cmd)
       end) ->
  classifies_failure step cmd what invoked.
Proof.
  intros Hshape s Hs. cbv zeta. rewrite (Hshape s Hs).
  destruct (fst (execute cmd (world s))) as [out [|ch err]|text] eqn:Ho;
    cbn [inner_error truthy fst snd calls called recorded is_Raise];
    rewrite ?Ho.
  - split; [reflexivity|]. split; [|split].
    + split; [contradiction|].
      intros [(out' & err' & [= <- <-] & Hne)|(text & [=])]. congruence.
    + intros out' err' [= <- <-] Hne. congruence.
    + intros text [=].
  - split; [reflexivity|]. split; [|split].
    + split; [|trivial]. intros _. left.
      exists out, (String ch err). split; [reflexivity|discriminate].
    + intros out' err' [= <- <-] _. eexists. reflexivity.
    + intros text [=].
  - split; [reflexivity|]. split; [|split].
    + split; [|trivial]. intros _. right. exists text. reflexivity.
    + intros out' err' [=].
    + intros text' [= <-]. eexists. reflexivity.
Qed.

(** C7, as the code has it.  In each of the four steps, once the command
    is run (for the two creation steps: once the name is allocated), the
    step fails if and only if [execute] returned a non-empty error stream or
    [execute] itself raised, whatever made it raise: a command that could
    not be launched, or any other error of [execute], such as its rejection
    of a non-zero exit status.  The step itself never sees an exit status, so
    an empty error stream of a launched command does not make the step
    succeed when [execute] raises.  Both failures are raised as the one class
    [RpcCommandError], whose [cmd_result] has an empty [stdout] entry and, as
    [stderr] entry, the text of the underlying error: for a non-empty error
    stream the text of the error built from the two captured streams (its
    message ends with the error stream and its own [cmd_result] holds both
    streams), otherwise the text of what [execute] raised. *)
Theorem executor_failure_classification iqn ip backing name :
  classifies_failure (create_iscsi_bdev iqn ip)
    (bdev_iscsi_create_cmd (iscsi_of ip iqn) iqn ip)
    "bdev_iscsi_create"
    (fun s => iscsi_of ip iqn ∉ _created_devices s)
  /\ classifies_failure (create_blk_device backing ip iqn)
       (emulator_virtio_blk_device_create_cmd (blk_of ip iqn) backing)
       "emulator_virtio_blk_device_create"
       (fun s => blk_of ip iqn ∉ _created_devices s)
  /\ classifies_failure (delete_blk_device name)
       (emulator_virtio_blk_device_delete_cmd name)
       "emulator_virtio_blk_device_delete"
       (fun _ => True)
  /\ classifies_failure (delete_iscsi_bdev name)
       (bdev_iscsi_delete_cmd name)
       "bdev_iscsi_delete"
       (fun _ => True).
Proof.
  split; [|split; [|split]].
  - eapply classifies_failure_of_shape
      with (upd := fun names => {[iscsi_of ip iqn]} ∪ names).
    intros s Hs. rewrite create_iscsi_bdev_eq. cbv zeta.
    rewrite (bool_decide_eq_false_2 _ Hs). reflexivity.
  - eapply classifies_failure_of_shape
      with (upd := fun names => {[blk_of ip iqn]} ∪ names).
    intros s Hs. rewrite create_blk_device_eq. cbv zeta.
    rewrite (bool_decide_eq_false_2 _ Hs). reflexivity.
  - eapply classifies_failure_of_shape
      with (upd := fun names => names ∖ {[name]}).
    intros s _. rewrite delete_blk_device_eq. reflexivity.
  - eapply classifies_failure_of_shape
      with (upd := fun names => names ∖ {[name]}).
    intros s _. rewrite delete_iscsi_bdev_eq. reflexivity.
Qed.

End Properties.

(** * The properties on sample runs *)

Section Samples.

Import Script.

Local Abbreviation iscsi0 := (_find_unique_name "iscsi" sample_ip sample_iqn).
Local Abbreviation blk0 := (_find_unique_name "blk" sample_ip sample_iqn).

Example sample_attach_detach :
  observe (disconnect sample_iqn sample_ip (attached []))
  = (Ok [("result", "Cloud disk disconnected successfully.")], [],
     [bdev_iscsi_create_cmd "iscsia7165833" sample_iqn sample_ip;
      emulator_virtio_blk_device_create_cmd "blka7165833" "iscsia7165833";
      emulator_virtio_blk_device_delete_cmd "blka7165833";
      bdev_iscsi_delete_cmd "iscsia7165833"]).
Proof. vm_compute. reflexivity. Qed.

(** C1 as worded does not hold: bdev-create succeeds, front-end-create
    fails, and the bdev-delete of the rollback fails as well; the iscsi name
    is then still in the Name Set. *)
Lemma rollback_release_refuted :
  ~ rollback_always_releases World execute write_devices repr
      sample_iqn sample_ip
      (start ∅ [Returned "created" ""; Returned "" "no such bdev";
                Returned "" "device busy"]).
Proof.
  intros Hclaim.
  destruct (Hclaim (Returned "created" "") (Returned "" "no such bdev")
              [(bdev_iscsi_delete_cmd iscsi0, Returned "" "device busy")])
    as (_ & Hn & _).
  - vm_compute. reflexivity.
  - reflexivity.
  - reflexivity.
  - apply Hn. refine (bool_decide_unpack _ _). vm_compute. exact I.
Qed.

Lemma attach_rollback_on_delete_success_witness :
  let s := start ∅ [Returned "created" ""; Returned "" "no such bdev";
                    Returned "deleted" ""] in
  fst (connect sample_iqn sample_ip s)
  = Raise (BadRequest "Cloud disk connection failed.")
  /\ (blk0 ∉ _created_devices (snd (connect sample_iqn sample_ip s)))
  /\ (iscsi0 ∉ _created_devices (snd (connect sample_iqn sample_ip s)))
  /\ _created_devices (snd (connect sample_iqn sample_ip s))
     = _created_devices s.
Proof.
  intros s.
  destruct (attach_rollback_on_delete_success execute write_devices repr
              sample_iqn sample_ip s
              (Returned "created" "") (Returned "" "no such bdev")
              [(bdev_iscsi_delete_cmd iscsi0, Returned "deleted" "")])
    as (Hres & Hb & o3 & Hrest & Hreleased & _).
  - vm_compute. reflexivity.
  - reflexivity.
  - reflexivity.
  - assert (Ho3 : reported_success o3 = true).
    { change (reported_success
                (snd (hd ([], Raised "")
                        [(bdev_iscsi_delete_cmd iscsi0, o3)])) = true).
      rewrite <- Hrest. reflexivity. }
    destruct (Hreleased Ho3) as [Hn Hset].
    split; [exact Hres|]. split; [exact Hb|]. split; [exact Hn|exact Hset].
Defined.


(** C2 as worded does not hold: after front-end-delete succeeded and
    bdev-delete failed, a detach issued again does not succeed although its
    bdev-delete command would report success. *)
Lemma detach_retry_refuted :
  ~ detach_retry_succeeds World execute write_devices repr
      sample_iqn sample_ip
      (attached [Returned "deleted" ""; Returned "" "device busy"]).
Proof.
  intros Hclaim.
  destruct (Hclaim (Returned "deleted" "") (Returned "" "device busy"))
    as (_ & _ & Hretry).
  - vm_compute. reflexivity.
  - reflexivity.
  - reflexivity.
  - destruct Hretry as [rep Hrep].
    + vm_compute. reflexivity.
    + vm_compute in Hrep. discriminate Hrep.
Qed.

Lemma detach_partial_failure_blocks_retry_witness :
  let s := attached [Returned "deleted" ""; Returned "" "device busy"] in
  fst (disconnect sample_iqn sample_ip s)
  = Raise (BadRequest "Cloud disk disconnection failed.")
  /\ _created_devices (snd (disconnect sample_iqn sample_ip s))
     = _created_devices s ∖ {[blk0]}
  /\ (iscsi0 ∈ _created_devices (snd (disconnect sample_iqn sample_ip s)))
  /\ (blk0 ∉ _created_devices (snd (disconnect sample_iqn sample_ip s)))
  /\ disconnect sample_iqn sample_ip (snd (disconnect sample_iqn sample_ip s))
     = (Raise (BadRequest "Command failed with error."),
        snd (disconnect sample_iqn sample_ip s)).
Proof.
  intros s.
  apply (detach_partial_failure_blocks_retry execute write_devices repr
           sample_iqn sample_ip s
           (Returned "deleted" "") (Returned "" "device busy")).
  - vm_compute. reflexivity.
  - reflexivity.
  - reflexivity.
Defined.

Lemma duplicate_connect_rejected_witness :
  let s := start ∅ [] in
  let s1 := snd (connect sample_iqn sample_ip s) in
  connect sample_iqn sample_ip s
  = (Ok [("result", "Cloud disk connected successfully.")], s1)
  /\ _created_devices s1 = {[blk0]} ∪ ({[iscsi0]} ∪ _created_devices s)
  /\ connect sample_iqn sample_ip s1
     = (Raise (BadRequest "Command failed with error"), s1).
Proof.
  intros s s1.
  assert (Hfirst : connect sample_iqn sample_ip s
                   = (Ok [("result", "Cloud disk connected successfully.")], s1)).
  { vm_compute. reflexivity. }
  destruct (duplicate_connect_rejected execute write_devices repr
              sample_iqn sample_ip s _ s1 Hfirst)
    as (_ & _ & Hset & _ & Hsecond & _).
  split; [exact Hfirst|]. split; [exact Hset|exact Hsecond].
Defined.

Lemma disconnect_unknown_identity_witness :
  let s := start ∅ [] in
  (iscsi0 ∉ _created_devices s)
  /\ (blk0 ∉ _created_devices s)
  /\ disconnect sample_iqn sample_ip s
     = (Raise (BadRequest "Command failed with error."), s).
Proof.
  intros s.
  assert (Hn : iscsi0 ∉ _created_devices s) by apply not_elem_of_empty.
  assert (Hb : blk0 ∉ _created_devices s) by apply not_elem_of_empty.
  split; [exact Hn|]. split; [exact Hb|].
  exact (proj1 (proj2 (disconnect_unknown_identity execute write_devices repr
                         sample_iqn sample_ip s Hn Hb))).
Defined.

Lemma allocate_raises_iff_present_witness :
  let s := attached [] in
  fst (_generate_unique_name World "iscsi" sample_ip sample_iqn s)
  = Raise (ValueError ("Device name '" ++ iscsi0 ++ "' already exists."))
  /\ snd (_generate_unique_name World "iscsi" sample_ip sample_iqn s) = s.
Proof.
  intros s.
  destruct (allocate_raises_iff_present "iscsi" sample_ip sample_iqn s)
    as (_ & Hpresent & _ & Hsame).
  split; [|exact Hsame].
  apply Hpresent. refine (bool_decide_unpack _ _). vm_compute. exact I.
Defined.

Lemma executor_failure_classification_witness :
  let s := start ∅ [Returned "partial" "boom"] in
  exists msg,
    fst (execute_rpc_bdev_iscsi_delete World execute write_devices repr
           "iscsi0badc0de" s)
    = Raise (RpcCommandError msg
               {| stdout := "";
                  stderr := str_exn repr
                    (RpcCommandError
                       ("Error executing " ++ "bdev_iscsi_delete"
                        ++ " command. Error: " ++ "boom")
                       {| stdout := "partial"; stderr := "boom" |}) |}).
Proof.
  intros s.
  destruct (executor_failure_classification execute write_devices repr
              sample_iqn sample_ip "iscsi0badc0de" "iscsi0badc0de")
    as (_ & _ & _ & Hdelete).
  destruct (Hdelete s I) as (_ & _ & Hstream & _).
  apply (Hstream "partial" "boom"); [reflexivity|discriminate].
Defined.

Lemma name_set_changes_only_on_success_witness :
  let s := start ∅ [Returned "created" ""; Returned "" "no such bdev";
                    Returned "" "device busy"] in
  mutations_follow_success World s (snd (connect sample_iqn sample_ip s)).
Proof.
  intros s.
  exact (proj1 (proj2 (proj2 (proj2 (proj2
           (name_set_changes_only_on_success execute write_devices repr
              sample_iqn sample_ip "iscsi0badc0de" "iscsi0badc0de"))))) s).
Defined.

Lemma derive_not_injective_witness :
  let s := start ∅ [] in
  let s1 := snd (connect "c" "a_b" s) in
  connect "c" "a_b" s
  = (Ok [("result", "Cloud disk connected successfully.")], s1)
  /\ connect "b_c" "a" s1
     = (Raise (BadRequest "Command failed with error"), s1).
Proof.
  intros s s1.
  assert (Hfirst : connect "c" "a_b" s
                   = (Ok [("result", "Cloud disk connected successfully.")], s1)).
  { vm_compute. reflexivity. }
  split; [exact Hfirst|].
  exact (proj1 (proj2 (proj2 (derive_not_injective execute write_devices repr)))
           s _ s1 Hfirst).
Defined.

End Samples.

(** * Further properties of the registry and the workflows *)

(** ** The registry: record, release, allocate, resolve *)

Section Registry.

Context {World : Type}.
Variable write_devices : gset string -> World -> World.

Local Abbreviation add_device_name := (add_device_name World write_devices).
Local Abbreviation remove_device_name := (remove_device_name World write_devices).
Local Abbreviation get_iscsi_name := (get_iscsi_name World).
Local Abbreviation get_blk_name := (get_blk_name World).
Local Abbreviation check_iscsi_name := (check_iscsi_name World).
Local Abbreviation check_blk_name := (check_blk_name World).
Local Abbreviation iscsi_of ip iqn := (_find_unique_name "iscsi" ip iqn).
Local Abbreviation blk_of ip iqn := (_find_unique_name "blk" ip iqn).

Implicit Types (s : Agent World) (ip iqn name : string).

Lemma check_iscsi_name_eq ip iqn s :
  check_iscsi_name ip iqn s =
    if bool_decide (iscsi_of ip iqn ∈ _created_devices s)
    then (Ok (iscsi_of ip iqn), s)
    else (Raise (ValueError ("iSCSI name '" ++ iscsi_of ip iqn
                             ++ "' does not exist.")), s).
Proof.
  unfold check_iscsi_name, bind, get. destruct (bool_decide _); reflexivity.
Qed.

Lemma check_blk_name_eq ip iqn s :
  check_blk_name ip iqn s =
    if bool_decide (blk_of ip iqn ∈ _created_devices s)
    then (Ok (blk_of ip iqn), s)
    else (Raise (ValueError ("Block device name '" ++ blk_of ip iqn
                             ++ "' does not exist.")), s).
Proof.
  unfold check_blk_name, bind, get. destruct (bool_decide _); reflexivity.
Qed.

(** X1. Recording the derived name of an identity makes it resolvable and
    no longer allocatable: after [add_device_name] of the iscsi (blk) name,
    [check_iscsi_name] ([check_blk_name]) returns that name without touching
    the agent, and [get_iscsi_name] ([get_blk_name]) raises. *)
Theorem record_then_resolve ip iqn s :
  check_iscsi_name ip iqn (snd (add_device_name (iscsi_of ip iqn) s))
  = (Ok (iscsi_of ip iqn), snd (add_device_name (iscsi_of ip iqn) s))
  /\ is_Raise (fst (get_iscsi_name ip iqn
                      (snd (add_device_name (iscsi_of ip iqn) s))))
  /\ check_blk_name ip iqn (snd (add_device_name (blk_of ip iqn) s))
     = (Ok (blk_of ip iqn), snd (add_device_name (blk_of ip iqn) s))
  /\ is_Raise (fst (get_blk_name ip iqn
                      (snd (add_device_name (blk_of ip iqn) s)))).
Proof.
  rewrite check_iscsi_name_eq, check_blk_name_eq.
  unfold get_iscsi_name, get_blk_name. rewrite !generate_unique_name_eq.
  cbn [add_device_name snd].
  assert (Hi : iscsi_of ip iqn ∈ {[iscsi_of ip iqn]} ∪ _created_devices s)
    by set_solver.
  assert (Hb : blk_of ip iqn ∈ {[blk_of ip iqn]} ∪ _created_devices s)
    by set_solver.
  change (_created_devices (snd (add_device_name (iscsi_of ip iqn) s)))
    with ({[iscsi_of ip iqn]} ∪ _created_devices s).
  change (_created_devices (snd (add_device_name (blk_of ip iqn) s)))
    with ({[blk_of ip iqn]} ∪ _created_devices s).
  rewrite !(bool_decide_eq_true_2 _ Hi), !(bool_decide_eq_true_2 _ Hb).
  cbn. tauto.
Qed.

(** X2. Releasing the derived name of an identity makes it allocatable and
    no longer resolvable: after [remove_device_name] of the iscsi (blk)
    name, [check_iscsi_name] ([check_blk_name]) raises the [ValueError] that
    names it, and [get_iscsi_name] ([get_blk_name]) returns it. *)
Theorem release_then_allocate ip iqn s :
  check_iscsi_name ip iqn (snd (remove_device_name (iscsi_of ip iqn) s))
  = (Raise (ValueError ("iSCSI name '" ++ iscsi_of ip iqn
                        ++ "' does not exist.")),
     snd (remove_device_name (iscsi_of ip iqn) s))
  /\ get_iscsi_name ip iqn (snd (remove_device_name (iscsi_of ip iqn) s))
     = (Ok (iscsi_of ip iqn), snd (remove_device_name (iscsi_of ip iqn) s))
  /\ check_blk_name ip iqn (snd (remove_device_name (blk_of ip iqn) s))
     = (Raise (ValueError ("Block device name '" ++ blk_of ip iqn
                           ++ "' does not exist.")),
        snd (remove_device_name (blk_of ip iqn) s))
  /\ get_blk_name ip iqn (snd (remove_device_name (blk_of ip iqn) s))
     = (Ok (blk_of ip iqn), snd (remove_device_name (blk_of ip iqn) s)).
Proof.
  rewrite check_iscsi_name_eq, check_blk_name_eq.
  unfold get_iscsi_name, get_blk_name. rewrite !generate_unique_name_eq.
  change (_created_devices (snd (remove_device_name (iscsi_of ip iqn) s)))
    with (_created_devices s ∖ {[iscsi_of ip iqn]}).
  change (_created_devices (snd (remove_device_name (blk_of ip iqn) s)))
    with (_created_devices s ∖ {[blk_of ip iqn]}).
  assert (Hi : iscsi_of ip iqn ∉ _created_devices s ∖ {[iscsi_of ip iqn]})
    by set_solver.
  assert (Hb : blk_of ip iqn ∉ _created_devices s ∖ {[blk_of ip iqn]})
    by set_solver.
  rewrite !(bool_decide_eq_false_2 _ Hi), !(bool_decide_eq_false_2 _ Hb).
  tauto.
Qed.

(** X3. [add_device_name] and [remove_device_name] never raise, whatever
    the name.  Recording a name twice gives the Name Set of recording it
    once; releasing a name that is not recorded leaves the Name Set as it
    was; and recording then releasing a name that was not recorded gives
    back the Name Set one started from. *)
Theorem record_release_idempotent name s :
  fst (add_device_name name s) = Ok tt
  /\ fst (remove_device_name name s) = Ok tt
  /\ _created_devices (snd (add_device_name name (snd (add_device_name name s))))
     = _created_devices (snd (add_device_name name s))
  /\ _created_devices
       (snd (remove_device_name name (snd (remove_device_name name s))))
     = _created_devices (snd (remove_device_name name s))
  /\ (name ∉ _created_devices s ->
      _created_devices (snd (remove_device_name name s)) = _created_devices s
      /\ _created_devices
           (snd (remove_device_name name (snd (add_device_name name s))))
         = _created_devices s).
Proof.
  split; [reflexivity|]. split; [reflexivity|].
  cbn [add_device_name remove_device_name snd _created_devices].
  change (_created_devices (snd (add_device_name name s)))
    with ({[name]} ∪ _created_devices s).
  repeat split; cbn; set_solver.
Qed.

(** X4. In every state exactly one of allocate and resolve succeeds for an
    identity and a kind, and the one that succeeds returns the derived name:
    [get_iscsi_name] returns it when the name is not recorded (then
    [check_iscsi_name] raises), [check_iscsi_name] returns it when the name
    is recorded (then [get_iscsi_name] raises); likewise for [get_blk_name]
    and [check_blk_name].  Neither changes the agent. *)
Theorem allocate_xor_resolve ip iqn s :
  ((fst (get_iscsi_name ip iqn s) = Ok (iscsi_of ip iqn)
    /\ is_Raise (fst (check_iscsi_name ip iqn s)))
   \/ (is_Raise (fst (get_iscsi_name ip iqn s))
       /\ fst (check_iscsi_name ip iqn s) = Ok (iscsi_of ip iqn)))
  /\ ((fst (get_blk_name ip iqn s) = Ok (blk_of ip iqn)
       /\ is_Raise (fst (check_blk_name ip iqn s)))
      \/ (is_Raise (fst (get_blk_name ip iqn s))
          /\ fst (check_blk_name ip iqn s) = Ok (blk_of ip iqn)))
  /\ snd (get_iscsi_name ip iqn s) = s
  /\ snd (check_iscsi_name ip iqn s) = s
  /\ snd (get_blk_name ip iqn s) = s
  /\ snd (check_blk_name ip iqn s) = s.
Proof.
  rewrite check_iscsi_name_eq, check_blk_name_eq.
  unfold get_iscsi_name, get_blk_name. rewrite !generate_unique_name_eq.
  destruct (bool_decide (iscsi_of ip iqn ∈ _created_devices s));
    destruct (bool_decide (blk_of ip iqn ∈ _created_devices s));
    cbn; tauto.
Qed.

End Registry.

(** ** The workflows *)

Section Coverage.

Context {World : Type}.
Variable execute : list string -> World -> exec_outcome * World.
Variable write_devices : gset string -> World -> World.
Variable repr : string -> string.

Local Abbreviation connect := (connect_cloud_disk World execute write_devices repr).
Local Abbreviation disconnect := (disconnect_cloud_disk World execute write_devices repr).
Local Abbreviation iscsi_of ip iqn := (_find_unique_name "iscsi" ip iqn).
Local Abbreviation blk_of ip iqn := (_find_unique_name "blk" ip iqn).
Local Abbreviation called := (called execute).
Local Abbreviation recorded := (recorded write_devices).

Implicit Types (s : Agent World) (o : exec_outcome) (ip iqn name : string).

(** *** The attach workflow, case by case *)

(** X5. An attach succeeds exactly when neither name of the identity is
    recorded, the bdev-create command reports success and the
    front-end-create command, run in the world left by the first command and
    the rewrite of [devices.json], reports success too.  It then returns the
    fixed reply, has run these two commands and no other, and the Name Set
    is the one before plus the two names. *)
Theorem connect_succeeds_iff iqn ip s :
  let n := iscsi_of ip iqn in
  let b := blk_of ip iqn in
  let c1 := bdev_iscsi_create_cmd n iqn ip in
  let c2 := emulator_virtio_blk_device_create_cmd b n in
  let s1 := recorded (called s c1) ({[n]} ∪ _created_devices s) in
  ((exists rep, fst (connect iqn ip s) = Ok rep) <->
     (n ∉ _created_devices s) /\ (b ∉ _created_devices s)
     /\ reported_success (fst (execute c1 (world s))) = true
     /\ reported_success (fst (execute c2 (world s1))) = true)
  /\ (forall rep, fst (connect iqn ip s) = Ok rep ->
        rep = [("result", "Cloud disk connected successfully.")]
        /\ _created_devices (snd (connect iqn ip s))
           = {[b]} ∪ ({[n]} ∪ _created_devices s)
        /\ calls (snd (connect iqn ip s))
           = (calls s ++ [(c1, fst (execute c1 (world s)));
                          (c2, fst (execute c2 (world s1)))])%list).
Proof.
  intros n b c1 c2 s1.
  assert (Hne : n <> b) by apply iscsi_name_ne_blk_name.
  rewrite (connect_by_outcome execute write_devices repr). cbv zeta.
  fold n b c1 c2 s1.
  destruct (bool_decide_reflect (n ∈ _created_devices s)) as [Hn|Hn].
  { cbn. split; [split|].
    - intros [rep [=]].
    - tauto.
    - intros rep [=]. }
  destruct (reported_success (fst (execute c1 (world s)))) eqn:Ho1.
  2:{ cbn. split; [split|].
      - intros [rep [=]].
      - intros (_ & _ & [=] & _).
      - intros rep [=]. }
  assert (Hb1 : b ∈ _created_devices s1 <-> b ∈ _created_devices s).
  { subst s1. cbn. set_solver. }
  destruct (bool_decide_reflect (b ∈ _created_devices s1)) as [Hb|Hb].
  { cbn [fst]. split; [split|].
    - intros [rep [=]].
    - intros (_ & Hb' & _). tauto.
    - intros rep [=]. }
  destruct (reported_success (fst (execute c2 (world s1)))) eqn:Ho2.
  - cbn [fst snd]. split; [split|].
    + intros _. tauto.
    + intros _. eexists. reflexivity.
    + intros rep [= <-]. split; [reflexivity|]. split; [reflexivity|].
      subst s1. cbn. rewrite <- app_assoc. reflexivity.
  - cbn [fst]. split; [split|].
    + intros [rep [=]].
    + intros (_ & _ & _ & [=]).
    + intros rep [=].
Qed.

(** X6. When the iscsi name is free and the bdev-create command fails, the
    attach is rejected as a connection failure after that one command: no
    front-end command and no rollback is run, [devices.json] is not
    rewritten and the Name Set is unchanged, so the same attach can be
    issued again. *)
Theorem connect_bdev_create_failure iqn ip s :
  iscsi_of ip iqn ∉ _created_devices s ->
  reported_success
    (fst (execute (bdev_iscsi_create_cmd (iscsi_of ip iqn) iqn ip) (world s)))
  = false ->
  connect iqn ip s
  = (Raise (BadRequest "Cloud disk connection failed."),
     called s (bdev_iscsi_create_cmd (iscsi_of ip iqn) iqn ip))
  /\ _created_devices (snd (connect iqn ip s)) = _created_devices s
  /\ (iscsi_of ip iqn ∉ _created_devices (snd (connect iqn ip s))).
Proof.
  intros Hn Ho1.
  rewrite (connect_by_outcome execute write_devices repr). cbv zeta.
  rewrite (bool_decide_eq_false_2 _ Hn), Ho1. cbn.
  split; [reflexivity|]. split; [reflexivity|exact Hn].
Qed.

(** X7. When the iscsi name is free but the blk name is already recorded,
    an attach creates the bdev, finds the collision when allocating the blk
    name, and rolls the bdev back without ever running the front-end-create
    command: it runs bdev-create then bdev-delete, is rejected as a
    validation failure, and leaves the Name Set as it was if the delete
    reported success, with the iscsi name added otherwise. *)
Theorem connect_blk_collision_rolls_back iqn ip s :
  let n := iscsi_of ip iqn in
  let b := blk_of ip iqn in
  let c1 := bdev_iscsi_create_cmd n iqn ip in
  let c3 := bdev_iscsi_delete_cmd n in
  let s1 := recorded (called s c1) ({[n]} ∪ _created_devices s) in
  n ∉ _created_devices s ->
  b ∈ _created_devices s ->
  reported_success (fst (execute c1 (world s))) = true ->
  fst (connect iqn ip s) = Raise (BadRequest "Command failed with error")
  /\ calls (snd (connect iqn ip s))
     = (calls s ++ [(c1, fst (execute c1 (world s)));
                    (c3, fst (execute c3 (world s1)))])%list
  /\ _created_devices (snd (connect iqn ip s))
     = if reported_success (fst (execute c3 (world s1)))
       then _created_devices s
       else {[n]} ∪ _created_devices s.
Proof.
  intros n b c1 c3 s1 Hn Hb Ho1.
  rewrite (connect_by_outcome execute write_devices repr). cbv zeta.
  fold n b c1 c3 s1.
  rewrite (bool_decide_eq_false_2 _ Hn), Ho1.
  assert (Hb1 : b ∈ _created_devices s1) by (subst s1; cbn; set_solver).
  rewrite (bool_decide_eq_true_2 _ Hb1). cbn [fst snd].
  rewrite calls_rolled_back, devices_rolled_back. fold c3.
  split; [reflexivity|]. split.
  - subst s1. cbn. rewrite <- app_assoc. reflexivity.
  - destruct (reported_success (fst (execute c3 (world s1))));
      subst s1; cbn; [set_solver|reflexivity].
Qed.

(** *** The detach workflow, case by case *)

(** X8. A detach succeeds exactly when both names of the identity are
    recorded, the front-end-delete command reports success and the
    bdev-delete command, run in the world left by the first command and the
    rewrite of [devices.json], reports success too.  It then returns the
    fixed reply, has run these two commands and no other, and the Name Set
    is the one before without the two names. *)
Theorem disconnect_succeeds_iff iqn ip s :
  let n := iscsi_of ip iqn in
  let b := blk_of ip iqn in
  let d1 := emulator_virtio_blk_device_delete_cmd b in
  let d2 := bdev_iscsi_delete_cmd n in
  let s1 := recorded (called s d1) (_created_devices s ∖ {[b]}) in
  ((exists rep, fst (disconnect iqn ip s) = Ok rep) <->
     (b ∈ _created_devices s) /\ (n ∈ _created_devices s)
     /\ reported_success (fst (execute d1 (world s))) = true
     /\ reported_success (fst (execute d2 (world s1))) = true)
  /\ (forall rep, fst (disconnect iqn ip s) = Ok rep ->
        rep = [("result", "Cloud disk disconnected successfully.")]
        /\ _created_devices (snd (disconnect iqn ip s))
           = (_created_devices s ∖ {[b]}) ∖ {[n]}
        /\ calls (snd (disconnect iqn ip s))
           = (calls s ++ [(d1, fst (execute d1 (world s)));
                          (d2, fst (execute d2 (world s1)))])%list).
Proof.
  intros n b d1 d2 s1.
  assert (Hne : n <> b) by apply iscsi_name_ne_blk_name.
  rewrite (disconnect_by_outcome execute write_devices repr). cbv zeta.
  fold n b d1 d2 s1.
  destruct (bool_decide_reflect (b ∈ _created_devices s)) as [Hb|Hb].
  2:{ cbn. split; [split|].
      - intros [rep [=]].
      - tauto.
      - intros rep [=]. }
  destruct (reported_success (fst (execute d1 (world s)))) eqn:Ho1.
  2:{ cbn. split; [split|].
      - intros [rep [=]].
      - intros (_ & _ & [=] & _).
      - intros rep [=]. }
  assert (Hn1 : n ∈ _created_devices s1 <-> n ∈ _created_devices s).
  { subst s1. cbn. set_solver. }
  destruct (bool_decide_reflect (n ∈ _created_devices s1)) as [Hn|Hn].
  2:{ cbn [fst]. split; [split|].
      - intros [rep [=]].
      - intros (_ & Hn' & _). tauto.
      - intros rep [=]. }
  destruct (reported_success (fst (execute d2 (world s1)))) eqn:Ho2.
  - cbn [fst snd]. split; [split|].
    + intros _. tauto.
    + intros _. eexists. reflexivity.
    + intros rep [= <-]. split; [reflexivity|]. split; [reflexivity|].
      subst s1. cbn. rewrite <- app_assoc. reflexivity.
  - cbn [fst]. split; [split|].
    + intros [rep [=]].
    + intros (_ & _ & _ & [=]).
    + intros rep [=].
Qed.

(** X9. When the blk name is recorded and the front-end-delete command
    fails, the detach is rejected as a disconnection failure after that one
    command: the bdev-delete command is not run, [devices.json] is not
    rewritten and the Name Set is unchanged, so the same detach can be
    issued again and will run the front-end-delete command again. *)
Theorem disconnect_front_end_delete_failure iqn ip s :
  blk_of ip iqn ∈ _created_devices s ->
  reported_success
    (fst (execute (emulator_virtio_blk_device_delete_cmd (blk_of ip iqn))
            (world s)))
  = false ->
  disconnect iqn ip s
  = (Raise (BadRequest "Cloud disk disconnection failed."),
     called s (emulator_virtio_blk_device_delete_cmd (blk_of ip iqn)))
  /\ _created_devices (snd (disconnect iqn ip s)) = _created_devices s
  /\ (blk_of ip iqn ∈ _created_devices (snd (disconnect iqn ip s))).
Proof.
  intros Hb Ho1.
  rewrite (disconnect_by_outcome execute write_devices repr). cbv zeta.
  rewrite (bool_decide_eq_true_2 _ Hb), Ho1. cbn.
  split; [reflexivity|]. split; [reflexivity|exact Hb].
Qed.

(** X10. When the blk name is recorded but the iscsi name is not, a detach
    whose front-end-delete command reports success deletes and releases the
    front-end device and is only then rejected, as a validation failure,
    when resolving the iscsi name: one command was run and the Name Set is
    the one before without the blk name. *)
Theorem disconnect_missing_iscsi_name iqn ip s :
  let b := blk_of ip iqn in
  let d1 := emulator_virtio_blk_device_delete_cmd b in
  b ∈ _created_devices s ->
  iscsi_of ip iqn ∉ _created_devices s ->
  reported_success (fst (execute d1 (world s))) = true ->
  disconnect iqn ip s
  = (Raise (BadRequest "Command failed with error."),
     recorded (called s d1) (_created_devices s ∖ {[b]}))
  /\ calls (snd (disconnect iqn ip s))
     = (calls s ++ [(d1, fst (execute d1 (world s)))])%list.
Proof.
  intros b d1 Hb Hn Ho1.
  rewrite (disconnect_by_outcome execute write_devices repr). cbv zeta.
  fold b d1. rewrite (bool_decide_eq_true_2 _ Hb), Ho1.
  assert (Hn1 : iscsi_of ip iqn
                ∉ _created_devices
                    (recorded (called s d1) (_created_devices s ∖ {[b]})))
    by (cbn; set_solver).
  rewrite (bool_decide_eq_false_2 _ Hn1). split; reflexivity.
Qed.

(** *** What a workflow can do to the Name Set *)

Lemma same_hash_names ip iqn ip' iqn' :
  blk_of ip iqn = blk_of ip' iqn' <-> iscsi_of ip iqn = iscsi_of ip' iqn'.
Proof.
  unfold _find_unique_name.
  generalize (slice_to 8 (md5_hexdigest (ip ++ "_" ++ iqn))) as h.
  generalize (slice_to 8 (md5_hexdigest (ip' ++ "_" ++ iqn'))) as h'.
  intros h' h. rewrite !append_String, !append_Empty.
  split; intros H; injection H as ->; reflexivity.
Qed.

Lemma connect_devices_cases iqn ip s :
  let n := iscsi_of ip iqn in
  let b := blk_of ip iqn in
  (_created_devices (snd (connect iqn ip s)) = _created_devices s
   /\ is_Raise (fst (connect iqn ip s)))
  \/ ((n ∉ _created_devices s)
      /\ _created_devices (snd (connect iqn ip s)) = {[n]} ∪ _created_devices s
      /\ is_Raise (fst (connect iqn ip s)))
  \/ ((n ∉ _created_devices s) /\ (b ∉ _created_devices s)
      /\ _created_devices (snd (connect iqn ip s))
         = {[b]} ∪ ({[n]} ∪ _created_devices s)
      /\ fst (connect iqn ip s)
         = Ok [("result", "Cloud disk connected successfully.")]).
Proof.
  intros n b.
  assert (Hne : n <> b) by apply iscsi_name_ne_blk_name.
  rewrite (connect_by_outcome execute write_devices repr). cbv zeta.
  fold n b.
  destruct (bool_decide_reflect (n ∈ _created_devices s)) as [Hn|Hn].
  { left. split; [reflexivity|exact I]. }
  destruct (reported_success _).
  2:{ left. split; [reflexivity|exact I]. }
  set (s1 := recorded _ _).
  assert (Hs1 : _created_devices s1 = {[n]} ∪ _created_devices s)
    by reflexivity.
  destruct (bool_decide_reflect (b ∈ _created_devices s1)) as [Hb|Hb].
  { cbn [fst snd]. rewrite devices_rolled_back, Hs1.
    destruct (reported_success _).
    - left. split; [set_solver|exact I].
    - right. left. split; [exact Hn|]. split; [reflexivity|exact I]. }
  destruct (reported_success (fst (execute _ (world s1)))).
  { right. right. cbn [fst snd]. split; [exact Hn|].
    split; [rewrite Hs1 in Hb; set_solver|]. split; reflexivity. }
  cbn [fst snd]. rewrite devices_rolled_back.
  change (_created_devices (called s1 _)) with (_created_devices s1).
  rewrite Hs1. destruct (reported_success _).
  - left. split; [set_solver|exact I].
  - right. left. split; [exact Hn|]. split; [reflexivity|exact I].
Qed.

Lemma disconnect_devices_cases iqn ip s :
  let n := iscsi_of ip iqn in
  let b := blk_of ip iqn in
  (_created_devices (snd (disconnect iqn ip s)) = _created_devices s
   /\ is_Raise (fst (disconnect iqn ip s)))
  \/ (b ∈ _created_devices s
      /\ _created_devices (snd (disconnect iqn ip s)) = _created_devices s ∖ {[b]}
      /\ is_Raise (fst (disconnect iqn ip s)))
  \/ (b ∈ _created_devices s /\ n ∈ _created_devices s
      /\ _created_devices (snd (disconnect iqn ip s))
         = (_created_devices s ∖ {[b]}) ∖ {[n]}
      /\ fst (disconnect iqn ip s)
         = Ok [("result", "Cloud disk disconnected successfully.")]).
Proof.
  intros n b.
  assert (Hne : n <> b) by apply iscsi_name_ne_blk_name.
  rewrite (disconnect_by_outcome execute write_devices repr). cbv zeta.
  fold n b.
  destruct (bool_decide_reflect (b ∈ _created_devices s)) as [Hb|Hb].
  2:{ left. split; [reflexivity|exact I]. }
  destruct (reported_success _).
  2:{ left. split; [reflexivity|exact I]. }
  set (s1 := recorded _ _).
  assert (Hs1 : _created_devices s1 = _created_devices s ∖ {[b]})
    by reflexivity.
  destruct (bool_decide_reflect (n ∈ _created_devices s1)) as [Hn|Hn].
  2:{ right. left. split; [exact Hb|]. split; [reflexivity|exact I]. }
  destruct (reported_success (fst (execute _ (world s1)))).
  - right. right. cbn [fst snd]. split; [exact Hb|].
    split; [rewrite Hs1 in Hn; set_solver|]. split; reflexivity.
  - right. left. split; [exact Hb|]. split; [reflexivity|exact I].
Qed.

(** X11. An attach that succeeds followed at once by a detach of the same
    identity that succeeds gives back the Name Set one started from, after
    exactly four commands, each of which reported success: bdev-create,
    front-end-create, front-end-delete, bdev-delete, in that order. *)
Theorem connect_then_disconnect_restores iqn ip s r1 s1 r2 s2 :
  let n := iscsi_of ip iqn in
  let b := blk_of ip iqn in
  connect iqn ip s = (Ok r1, s1) ->
  disconnect iqn ip s1 = (Ok r2, s2) ->
  _created_devices s2 = _created_devices s
  /\ exists o1 o2 o3 o4,
       calls s2
       = (calls s ++ [(bdev_iscsi_create_cmd n iqn ip, o1);
                      (emulator_virtio_blk_device_create_cmd b n, o2);
                      (emulator_virtio_blk_device_delete_cmd b, o3);
                      (bdev_iscsi_delete_cmd n, o4)])%list
       /\ reported_success o1 = true /\ reported_success o2 = true
       /\ reported_success o3 = true /\ reported_success o4 = true.
Proof.
  intros n b Hc Hd.
  assert (Hne : n <> b) by apply iscsi_name_ne_blk_name.
  rewrite (connect_by_outcome execute write_devices repr) in Hc.
  cbv zeta in Hc. fold n b in Hc.
  repeat match type of Hc with
         | (if ?c then _ else _) = _ =>
             let E := fresh "E" in destruct c eqn:E; try discriminate Hc
         end.
  injection Hc as <- <-.
  rewrite (disconnect_by_outcome execute write_devices repr) in Hd.
  cbv zeta in Hd. fold n b in Hd.
  repeat match type of Hd with
         | (if ?c then _ else _) = _ =>
             let E := fresh "E" in destruct c eqn:E; try discriminate Hd
         end.
  injection Hd as <- <-.
  repeat match goal with
         | H : bool_decide _ = false |- _ => apply bool_decide_eq_false in H
         | H : bool_decide _ = true |- _ => apply bool_decide_eq_true in H
         end.
  cbn [_created_devices recorded called calls] in *. split.
  - set_solver.
  - do 4 eexists. split.
    + rewrite <- !app_assoc. reflexivity.
    + repeat split; assumption.
Qed.

(** X12. The workflows keep the Name Set paired: if no blk name is recorded
    without the iscsi name of the same identity before an attach or a
    detach (of any identity), the same holds after it, whatever the commands
    did.  The empty Name Set is paired, so from an empty registry no
    front-end device is ever recorded without its backing bdev. *)
Theorem workflows_keep_names_paired iqn ip s :
  paired s ->
  paired (snd (connect iqn ip s)) /\ paired (snd (disconnect iqn ip s)).
Proof.
  intros Hp. split; intros ip' iqn' Hin.
  - assert (Hne := iscsi_name_ne_blk_name ip iqn ip' iqn').
    assert (Hne' := iscsi_name_ne_blk_name ip' iqn' ip iqn).
    assert (Hsame := same_hash_names ip' iqn' ip iqn).
    specialize (Hp ip' iqn').
    destruct (connect_devices_cases iqn ip s)
      as [[Hs _]|[(Hn & Hs & _)|(Hn & Hb & Hs & _)]];
      rewrite Hs in Hin |- *; clear Hs;
      set (n := iscsi_of ip iqn) in *; set (b := blk_of ip iqn) in *;
      set (n' := iscsi_of ip' iqn') in *; set (b' := blk_of ip' iqn') in *;
      clearbody n b n' b'.
    + auto.
    + set_solver.
    + apply elem_of_union in Hin as [Hin|Hin].
      * apply elem_of_singleton in Hin. apply Hsame in Hin. set_solver.
      * set_solver.
  - assert (Hne := iscsi_name_ne_blk_name ip' iqn' ip iqn).
    assert (Hsame := same_hash_names ip' iqn' ip iqn).
    specialize (Hp ip' iqn').
    destruct (disconnect_devices_cases iqn ip s)
      as [[Hs _]|[(Hb & Hs & _)|(Hb & Hn & Hs & _)]];
      rewrite Hs in Hin |- *; clear Hs;
      set (n := iscsi_of ip iqn) in *; set (b := blk_of ip iqn) in *;
      set (n' := iscsi_of ip' iqn') in *; set (b' := blk_of ip' iqn') in *;
      clearbody n b n' b'.
    + auto.
    + set_solver.
    + assert (Hblk : b' <> b) by set_solver.
      assert (Hiscsi : n' <> n) by tauto.
      set_solver.
Qed.

(** X13. An attach or a detach touches no name but the two of its identity:
    every other name is in the Name Set afterwards exactly when it was
    before. *)
Theorem workflows_touch_only_own_names iqn ip s name :
  name <> iscsi_of ip iqn ->
  name <> blk_of ip iqn ->
  (name ∈ _created_devices (snd (connect iqn ip s))
   <-> name ∈ _created_devices s)
  /\ (name ∈ _created_devices (snd (disconnect iqn ip s))
      <-> name ∈ _created_devices s).
Proof.
  intros Hn Hb. split.
  - destruct (connect_devices_cases iqn ip s)
      as [[Hs _]|[(_ & Hs & _)|(_ & _ & Hs & _)]];
      rewrite Hs; clear Hs;
      set (n := iscsi_of ip iqn) in *; set (b := blk_of ip iqn) in *;
      clearbody n b; set_solver.
  - destruct (disconnect_devices_cases iqn ip s)
      as [[Hs _]|[(_ & Hs & _)|(_ & _ & Hs & _)]];
      rewrite Hs; clear Hs;
      set (n := iscsi_of ip iqn) in *; set (b := blk_of ip iqn) in *;
      clearbody n b; set_solver.
Qed.

(** X14. A workflow that fails leaves little behind.  A failed attach never
    records the blk name and never removes a name: the Name Set afterwards
    is the one before, or the one before plus the iscsi name.  A failed
    detach never removes the iscsi name and never adds a name: the Name Set
    afterwards is the one before, or the one before without the blk name. *)
Theorem failed_workflow_residue iqn ip s :
  (is_Raise (fst (connect iqn ip s)) ->
     _created_devices (snd (connect iqn ip s)) = _created_devices s
     \/ _created_devices (snd (connect iqn ip s))
        = {[iscsi_of ip iqn]} ∪ _created_devices s)
  /\ (is_Raise (fst (disconnect iqn ip s)) ->
        _created_devices (snd (disconnect iqn ip s)) = _created_devices s
        \/ _created_devices (snd (disconnect iqn ip s))
           = _created_devices s ∖ {[blk_of ip iqn]}).
Proof.
  split; intros Hr.
  - destruct (connect_devices_cases iqn ip s)
      as [[Hs _]|[(_ & Hs & _)|(_ & _ & _ & Hok)]].
    + left. exact Hs.
    + right. exact Hs.
    + rewrite Hok in Hr. contradiction.
  - destruct (disconnect_devices_cases iqn ip s)
      as [[Hs _]|[(_ & Hs & _)|(_ & _ & _ & Hok)]].
    + left. exact Hs.
    + right. exact Hs.
    + rewrite Hok in Hr. contradiction.
Qed.

(** X15. Whatever happens inside, the caller of an attach gets the fixed
    success reply or a [BadRequest] with one of two fixed descriptions, and
    the caller of a detach likewise: no [ValueError], [RpcCommandError] or
    error of [execute] ever escapes a workflow. *)
Theorem workflows_raise_only_bad_request iqn ip s :
  connect_outcome (fst (connect iqn ip s))
  /\ disconnect_outcome (fst (disconnect iqn ip s)).
Proof.
  split.
  - rewrite (connect_by_outcome execute write_devices repr). cbv zeta.
    unfold connect_outcome.
    repeat (match goal with
            | |- context [if ?c then _ else _] => destruct c
            end); cbn [fst]; tauto.
  - rewrite (disconnect_by_outcome execute write_devices repr). cbv zeta.
    unfold disconnect_outcome.
    repeat (match goal with
            | |- context [if ?c then _ else _] => destruct c
            end); cbn [fst]; tauto.
Qed.

(** X16. The state with the iscsi name recorded and the blk name not
    recorded cannot be left through the workflows: an attach of the identity
    is rejected because the iscsi name exists, a detach because the blk name
    does not, both before any command and leaving the agent as it was. *)
Theorem bdev_created_state_is_stuck iqn ip s :
  iscsi_of ip iqn ∈ _created_devices s ->
  blk_of ip iqn ∉ _created_devices s ->
  connect iqn ip s = (Raise (BadRequest "Command failed with error"), s)
  /\ disconnect iqn ip s = (Raise (BadRequest "Command failed with error."), s).
Proof.
  intros Hn Hb. split.
  - apply (connect_iscsi_present execute write_devices repr), Hn.
  - apply (disconnect_blk_absent execute write_devices repr), Hb.
Qed.

(** X17. The commands of a workflow come in a fixed order.  An attach runs
    nothing, or bdev-create alone when it failed, or bdev-create then the
    rollback's bdev-delete when the blk name collided, or bdev-create then
    front-end-create when both reported success, or these two followed by
    the rollback's bdev-delete when front-end-create failed: front-end-create
    is never run unless bdev-create reported success, and no rollback follows
    a full success.  A detach runs nothing, or front-end-delete alone, or
    front-end-delete then bdev-delete, the latter only after front-end-delete
    reported success. *)
Theorem workflows_command_order iqn ip s :
  let n := iscsi_of ip iqn in
  let b := blk_of ip iqn in
  let c1 := bdev_iscsi_create_cmd n iqn ip in
  let c2 := emulator_virtio_blk_device_create_cmd b n in
  let c3 := bdev_iscsi_delete_cmd n in
  let d1 := emulator_virtio_blk_device_delete_cmd b in
  (exists l,
      calls (snd (connect iqn ip s)) = (calls s ++ l)%list
      /\ (l = []
          \/ (exists o1, l = [(c1, o1)] /\ reported_success o1 = false)
          \/ (exists o1 o3, l = [(c1, o1); (c3, o3)]
                            /\ reported_success o1 = true)
          \/ (exists o1 o2, l = [(c1, o1); (c2, o2)]
                            /\ reported_success o1 = true
                            /\ reported_success o2 = true)
          \/ (exists o1 o2 o3, l = [(c1, o1); (c2, o2); (c3, o3)]
                               /\ reported_success o1 = true
                               /\ reported_success o2 = false)))
  /\ (exists l,
        calls (snd (disconnect iqn ip s)) = (calls s ++ l)%list
        /\ (l = []
            \/ (exists o1, l = [(d1, o1)])
            \/ (exists o1 o2, l = [(d1, o1); (c3, o2)]
                              /\ reported_success o1 = true))).
Proof.
  intros n b c1 c2 c3 d1. split.
  - rewrite (connect_by_outcome execute write_devices repr). cbv zeta.
    fold n b c1 c2 c3.
    destruct (bool_decide _).
    { exists []. split; [cbn; rewrite app_nil_r; reflexivity|]. tauto. }
    destruct (reported_success (fst (execute c1 (world s)))) eqn:Ho1.
    2:{ eexists. split; [reflexivity|]. right. left. eauto. }
    set (s1 := recorded _ _).
    destruct (bool_decide _).
    { cbn [snd]. rewrite calls_rolled_back. fold c3.
      eexists. split; [subst s1; cbn; rewrite <- app_assoc; reflexivity|].
      right. right. left. eauto. }
    destruct (reported_success (fst (execute c2 (world s1)))) eqn:Ho2.
    + eexists. split; [subst s1; cbn; rewrite <- app_assoc; reflexivity|].
      right. right. right. left. eauto.
    + cbn [snd]. rewrite calls_rolled_back. fold c3.
      eexists. split; [subst s1; cbn; rewrite <- !app_assoc; reflexivity|].
      right. right. right. right. eauto 6.
  - rewrite (disconnect_by_outcome execute write_devices repr). cbv zeta.
    fold n b c3 d1.
    destruct (bool_decide _).
    2:{ exists []. split; [cbn; rewrite app_nil_r; reflexivity|]. tauto. }
    destruct (reported_success (fst (execute d1 (world s)))) eqn:Ho1.
    2:{ eexists. split; [reflexivity|]. right. left. eauto. }
    set (s1 := recorded _ _).
    destruct (bool_decide _).
    2:{ eexists. split; [reflexivity|]. right. left. eauto. }
    destruct (reported_success (fst (execute c3 (world s1))));
      (eexists; split; [subst s1; cbn; rewrite <- app_assoc; reflexivity|]);
      right; right; eauto.
Qed.

(** *** [devices.json] follows the Name Set *)

Section Persistence.

(** The names [devices.json] holds, if it holds any. *)
Variable disk : World -> option (gset string).
(** Rewriting the file succeeds. *)
Hypothesis write_succeeds :
  forall names w, disk (write_devices names w) = Some names.
(** The commands leave the file alone. *)
Hypothesis execute_keeps_disk :
  forall cmd w, disk (snd (execute cmd w)) = disk w.

Lemma called_keeps_disk s cmd : disk (world (called s cmd)) = disk (world s).
Proof. apply execute_keeps_disk. Qed.

Lemma recorded_disk s names : disk (world (recorded s names)) = Some names.
Proof. apply write_succeeds. Qed.

(** X18. If every write of [devices.json] succeeds and the commands leave
    the file alone, the file follows the Name Set through the workflows:
    when it holds exactly the Name Set before an attach or a detach, it
    holds exactly the Name Set after it, on success and on every failure. *)
Theorem devices_file_follows_name_set iqn ip s :
  disk (world s) = Some (_created_devices s) ->
  disk (world (snd (connect iqn ip s)))
  = Some (_created_devices (snd (connect iqn ip s)))
  /\ disk (world (snd (disconnect iqn ip s)))
     = Some (_created_devices (snd (disconnect iqn ip s))).
Proof.
  intros Hsync. split.
  - rewrite (connect_by_outcome execute write_devices repr). cbv zeta.
    repeat (match goal with
            | |- context [if ?c then _ else _] => destruct c
            end);
      cbn [snd]; rewrite ?(rolled_back_eq execute write_devices repr);
      cbv zeta;
      repeat (match goal with
              | |- context [if ?c then _ else _] => destruct c
              end);
      rewrite ?recorded_disk, ?called_keeps_disk, ?recorded_disk;
      try reflexivity; exact Hsync.
  - rewrite (disconnect_by_outcome execute write_devices repr). cbv zeta.
    repeat (match goal with
            | |- context [if ?c then _ else _] => destruct c
            end);
      cbn [snd];
      rewrite ?recorded_disk, ?called_keeps_disk, ?recorded_disk;
      try reflexivity; exact Hsync.
Qed.

End Persistence.

End Coverage.

(** ** The stand-in tool *)

Section StandIn.

Import NblRpc.

Variable error_commands : gmap string bool.
Variable json_str : string -> string.

Lemma append_Empty_r (t : string) : t ++ "" = t.
Proof.
  induction t as [|c t IH]; [reflexivity|].
  rewrite append_String, IH. reflexivity.
Qed.

Lemma shipped_never_fails cmd_key :
  default false (shipped_error_commands !! cmd_key) = false.
Proof.
  unfold shipped_error_commands.
  destruct (_ !! cmd_key) as [v|] eqn:Hv; [|reflexivity].
  repeat (apply lookup_insert_Some in Hv as [[_ <-]|[_ Hv]]; [reflexivity|]).
  apply lookup_singleton_Some in Hv as [_ <-]. reflexivity.
Qed.

(** X19. Run with at least one argument, the stand-in tool always exits,
    with the line "Executing: " and its arguments first on its output.  It
    exits with status 0 and an empty error stream unless the table marks the
    first argument as failing, in which case it exits with status 1 and
    names the command on its error stream: its error stream is non-empty
    exactly when its status is not 0.  A command the table does not list
    succeeds.  Run with no argument it prints "Executing: " and dies of the
    [IndexError] of [command[0]]. *)
Theorem stand_in_exit_status prog cmd_key rest :
  let executing :=
    "Executing: " ++ join " " (cmd_key :: rest) ++ newline in
  (exists more err status,
      main error_commands json_str (prog :: cmd_key :: rest)
      = Exited (executing ++ more) err status
      /\ (status = 0%Z <-> error_commands !! cmd_key <> Some true)
      /\ (status = 0%Z \/ status = 1%Z)
      /\ (err = "" <-> status = 0%Z)
      /\ (status = 1%Z ->
          more = ""
          /\ err = cmd_key ++ " command failed as configured" ++ newline))
  /\ (error_commands !! cmd_key = None ->
      exists out, main error_commands json_str (prog :: cmd_key :: rest)
                  = Exited out "" 0)
  /\ main error_commands json_str [prog]
     = Uncaught ("Executing: " ++ newline) IndexError.
Proof.
  intros executing. split; [|split].
  - unfold main, fake_execute. cbn [tail]. fold executing.
    assert (Hfails : default false (error_commands !! cmd_key) = true
                     <-> error_commands !! cmd_key = Some true).
    { destruct (error_commands !! cmd_key) as [[|]|]; cbn;
        split; congruence. }
    destruct (default false (error_commands !! cmd_key)).
    + exists "", (cmd_key ++ " command failed as configured" ++ newline), 1%Z.
      split; [rewrite append_Empty_r, append_assoc; reflexivity|].
      split; [split; [discriminate|intros H; exfalso; tauto]|].
      split; [right; reflexivity|].
      split.
      { split; [|discriminate]. intros H.
        destruct cmd_key; discriminate H. }
      intros _. split; reflexivity.
    + eexists _, "", 0%Z. split; [reflexivity|].
      split.
      { split; [|reflexivity]. intros _ H. apply Hfails in H. discriminate. }
      split; [left; reflexivity|].
      split; [tauto|discriminate].
  - intros Hk. unfold main, fake_execute. cbn [tail]. rewrite Hk.
    eexists. reflexivity.
  - reflexivity.
Qed.

(** X20. With the table as the file has it, no command fails: whatever its
    arguments (at least one), known command or not, the stand-in tool exits
    with status 0, an empty error stream, and on its output the "Executing"
    line followed by the JSON success message that names the command. *)
Theorem stand_in_shipped_always_succeeds prog cmd_key rest :
  main shipped_error_commands json_str (prog :: cmd_key :: rest)
  = Exited ("Executing: " ++ join " " (cmd_key :: rest) ++ newline
            ++ success_json json_str
                 (cmd_key ++ " command executed successfully")
            ++ newline)
           "" 0.
Proof.
  unfold main, fake_execute. cbn [tail].
  rewrite shipped_never_fails. rewrite !append_assoc. reflexivity.
Qed.

End StandIn.

(** * The further properties on sample runs *)

Section CoverageSamples.

Import Script.

Local Abbreviation iscsi0 := (_find_unique_name "iscsi" sample_ip sample_iqn).
Local Abbreviation blk0 := (_find_unique_name "blk" sample_ip sample_iqn).
Local Abbreviation c1 := (bdev_iscsi_create_cmd iscsi0 sample_iqn sample_ip).
Local Abbreviation c2 := (emulator_virtio_blk_device_create_cmd blk0 iscsi0).
Local Abbreviation c3 := (bdev_iscsi_delete_cmd iscsi0).
Local Abbreviation d1 := (emulator_virtio_blk_device_delete_cmd blk0).

(** Decides a closed statement about names and sets by evaluation. *)
Ltac by_evaluation := refine (bool_decide_unpack _ _); vm_compute; exact I.

Lemma record_release_idempotent_witness :
  let s := start ∅ [] in
  ("iscsi0badc0de" ∉ _created_devices s)
  /\ _created_devices
       (snd (remove_device_name World write_devices "iscsi0badc0de" s))
     = _created_devices s
  /\ _created_devices
       (snd (remove_device_name World write_devices "iscsi0badc0de"
               (snd (add_device_name World write_devices "iscsi0badc0de" s))))
     = _created_devices s.
Proof.
  intros s.
  assert (Hfree : "iscsi0badc0de" ∉ _created_devices s) by by_evaluation.
  split; [exact Hfree|].
  exact (proj2 (proj2 (proj2 (proj2
           (record_release_idempotent write_devices "iscsi0badc0de" s))))
           Hfree).
Defined.

Lemma connect_succeeds_iff_witness :
  let s := start ∅ [] in
  exists rep, fst (connect sample_iqn sample_ip s) = Ok rep.
Proof.
  intros s.
  pose proof (connect_succeeds_iff execute write_devices repr
                sample_iqn sample_ip s) as H.
  cbv zeta in H. destruct H as [[_ Hback] _].
  apply Hback. split; [by_evaluation|]. split; [by_evaluation|].
  split; vm_compute; reflexivity.
Defined.

Lemma connect_bdev_create_failure_witness :
  let s := start ∅ [Raised "[Errno 2] No such file or directory"] in
  connect sample_iqn sample_ip s
  = (Raise (BadRequest "Cloud disk connection failed."),
     called execute s c1)
  /\ _created_devices (snd (connect sample_iqn sample_ip s))
     = _created_devices s
  /\ (iscsi0 ∉ _created_devices (snd (connect sample_iqn sample_ip s))).
Proof.
  intros s.
  apply (connect_bdev_create_failure execute write_devices repr
           sample_iqn sample_ip s).
  - by_evaluation.
  - vm_compute. reflexivity.
Defined.

Lemma connect_blk_collision_rolls_back_witness :
  let s := start {[blk0]} [Returned "created" ""; Returned "deleted" ""] in
  fst (connect sample_iqn sample_ip s)
  = Raise (BadRequest "Command failed with error")
  /\ map fst (calls (snd (connect sample_iqn sample_ip s))) = [c1; c3].
Proof.
  intros s.
  pose proof (connect_blk_collision_rolls_back execute write_devices repr
                sample_iqn sample_ip s) as H.
  cbv zeta in H. destruct H as (Hres & Hcalls & _).
  - by_evaluation.
  - by_evaluation.
  - vm_compute. reflexivity.
  - split; [exact Hres|]. unfold connect. rewrite Hcalls. reflexivity.
Defined.

Lemma disconnect_succeeds_iff_witness :
  let s := attached [] in
  exists rep, fst (disconnect sample_iqn sample_ip s) = Ok rep.
Proof.
  intros s.
  pose proof (disconnect_succeeds_iff execute write_devices repr
                sample_iqn sample_ip s) as H.
  cbv zeta in H. destruct H as [[_ Hback] _].
  apply Hback. split; [by_evaluation|]. split; [by_evaluation|].
  split; vm_compute; reflexivity.
Defined.

Lemma disconnect_front_end_delete_failure_witness :
  let s := attached [Returned "" "device busy"] in
  disconnect sample_iqn sample_ip s
  = (Raise (BadRequest "Cloud disk disconnection failed."),
     called execute s d1)
  /\ _created_devices (snd (disconnect sample_iqn sample_ip s))
     = _created_devices s
  /\ (blk0 ∈ _created_devices (snd (disconnect sample_iqn sample_ip s))).
Proof.
  intros s.
  apply (disconnect_front_end_delete_failure execute write_devices repr
           sample_iqn sample_ip s).
  - by_evaluation.
  - vm_compute. reflexivity.
Defined.

Lemma disconnect_missing_iscsi_name_witness :
  let s := start {[blk0]} [Returned "deleted" ""] in
  disconnect sample_iqn sample_ip s
  = (Raise (BadRequest "Command failed with error."),
     recorded write_devices (called execute s d1)
       (_created_devices s ∖ {[blk0]}))
  /\ calls (snd (disconnect sample_iqn sample_ip s))
     = (calls s ++ [(d1, fst (execute d1 (world s)))])%list.
Proof.
  intros s.
  apply (disconnect_missing_iscsi_name execute write_devices repr
           sample_iqn sample_ip s).
  - by_evaluation.
  - by_evaluation.
  - vm_compute. reflexivity.
Defined.

Lemma connect_then_disconnect_restores_witness :
  let s := start ∅ [] in
  let s1 := snd (connect sample_iqn sample_ip s) in
  let s2 := snd (disconnect sample_iqn sample_ip s1) in
  _created_devices s2 = _created_devices s.
Proof.
  intros s s1 s2.
  refine (proj1 (connect_then_disconnect_restores execute write_devices repr
                   sample_iqn sample_ip s
                   [("result", "Cloud disk connected successfully.")] s1
                   [("result", "Cloud disk disconnected successfully.")] s2
                   _ _)).
  - vm_compute. reflexivity.
  - vm_compute. reflexivity.
Defined.

Lemma workflows_keep_names_paired_witness :
  let s := start ∅ [Returned "created" ""; Returned "" "no such bdev";
                    Returned "" "device busy"] in
  paired (snd (connect sample_iqn sample_ip s))
  /\ paired (snd (disconnect sample_iqn sample_ip s)).
Proof.
  intros s.
  apply (workflows_keep_names_paired execute write_devices repr).
  intros ip iqn Hin. exfalso. exact (not_elem_of_empty _ Hin).
Defined.

Lemma workflows_touch_only_own_names_witness :
  let s := start {[ "iscsi0badc0de" ]} [] in
  "iscsi0badc0de" ∈ _created_devices (snd (connect sample_iqn sample_ip s)).
Proof.
  intros s.
  apply (workflows_touch_only_own_names execute write_devices repr
           sample_iqn sample_ip s "iscsi0badc0de").
  - by_evaluation.
  - by_evaluation.
  - by_evaluation.
Defined.

Lemma failed_workflow_residue_witness :
  let s := start ∅ [Returned "created" ""; Returned "" "no such bdev";
                    Returned "" "device busy"] in
  _created_devices (snd (connect sample_iqn sample_ip s)) = _created_devices s
  \/ _created_devices (snd (connect sample_iqn sample_ip s))
     = {[iscsi0]} ∪ _created_devices s.
Proof.
  intros s.
  apply (proj1 (failed_workflow_residue execute write_devices repr
                  sample_iqn sample_ip s)).
  vm_compute. exact I.
Defined.

Lemma bdev_created_state_is_stuck_witness :
  let s := start {[iscsi0]} [] in
  connect sample_iqn sample_ip s
  = (Raise (BadRequest "Command failed with error"), s)
  /\ disconnect sample_iqn sample_ip s
     = (Raise (BadRequest "Command failed with error."), s).
Proof.
  intros s.
  apply (bdev_created_state_is_stuck execute write_devices repr
           sample_iqn sample_ip s).
  - by_evaluation.
  - by_evaluation.
Defined.

Lemma devices_file_follows_name_set_witness :
  let s : Agent DiskScript.World :=
    mkAgent ∅ ([Returned "created" ""; Returned "" "no such bdev";
                Returned "" "device busy"], Some ∅) [] in
  DiskScript.disk
    (world (snd (connect_cloud_disk DiskScript.World DiskScript.execute
                   DiskScript.write_devices repr sample_iqn sample_ip s)))
  = Some (_created_devices
            (snd (connect_cloud_disk DiskScript.World DiskScript.execute
                    DiskScript.write_devices repr sample_iqn sample_ip s))).
Proof.
  intros s.
  refine (proj1 (devices_file_follows_name_set DiskScript.execute
                   DiskScript.write_devices repr DiskScript.disk
                   _ _ sample_iqn sample_ip s _)).
  - intros names w. reflexivity.
  - intros cmd [[|o rest] d]; reflexivity.
  - reflexivity.
Defined.

Lemma stand_in_exit_status_witness :
  exists out,
    NblRpc.main NblRpc.shipped_error_commands
      (fun m => NblRpc.quote ++ m ++ NblRpc.quote)
      ["nbl_rpc.py"; "emulator_virtio_blk_device_list"; "--all"]
    = NblRpc.Exited out "" 0.
Proof.
  apply (proj1 (proj2 (stand_in_exit_status NblRpc.shipped_error_commands
                         (fun m => NblRpc.quote ++ m ++ NblRpc.quote)
                         "nbl_rpc.py" "emulator_virtio_blk_device_list"
                         ["--all"]))).
  vm_compute. reflexivity.
Defined.

End CoverageSamples.

(** * The failure classification and the exit status *)

Section ExitStatus.

Import Processes.

Variable exit_error : list string -> string -> string -> Z -> string.

Local Abbreviation delete_iscsi_bdev :=
  (execute_rpc_bdev_iscsi_delete World (execute exit_error) write_devices
     Script.repr).

(** With the exit status checked by [execute], the bdev-delete step fails
    exactly when the command could not be launched, exited with a status
    other than 0, or wrote to its error stream. *)
Lemma checked_exit_classification name p :
  is_Raise (fst (delete_iscsi_bdev name (mkAgent ∅ [p] [])))
  <-> match p with
      | Exits _ err status => status <> 0%Z \/ err <> ""
      | CannotLaunch _ => True
      end.
Proof.
  rewrite delete_iscsi_bdev_eq. cbv zeta. cbn [world execute fst].
  destruct p as [out err status|error]; cbn [outcome].
  - destruct (Z.eqb_spec status 0) as [->|Hstatus].
    + destruct err as [|c err]; cbn; split.
      * contradiction.
      * intros [H|H]; congruence.
      * intros _. right. discriminate.
      * trivial.
    + cbn. split; [intros _; left; exact Hstatus|trivial].
  - cbn. split; trivial.
Qed.

End ExitStatus.

(** C7 as worded does not hold: a command that is launched, writes nothing
    to its error stream and exits with status 1 makes [execute] raise, and
    the step fails. *)
Lemma exit_status_failure_refutes_classification :
  ~ Processes.fails_iff_stream_or_no_launch
      (fun cmd out err status => "Unexpected error while running command.")
      "iscsi0badc0de" (Processes.Exits "done" "" 1).
Proof.
  intros [Hfails _].
  destruct Hfails as [Hstream|Hlaunch].
  - vm_compute. exact I.
  - apply Hstream. reflexivity.
  - apply Hlaunch. exact I.
Qed.
